(** * Orchestrator of the algo-trading prototype ([main.py])

A shallow embedding of [run_algo_prototype] and of the objects it
drives.  DataFrames live in an object store so that [df.copy()] and
in-place mutation by the callees are visible; the module-level
collaborators ([ml_predictor], [backtester], [google_sheets_manager],
[settings]) are an interface record the orchestrator is parameterised
by.  Calls to the collaborators are recorded, in order, in a trace.
Logging is not part of the model. *)

From Stdlib Require Import ZArith QArith Lia Ascii.
From stdpp Require Import base list gmap strings pretty.

Local Open Scope string_scope.
Local Open Scope list_scope.
Local Open Scope Z_scope.

(** ** Data model *)

(** One row of a pandas DataFrame: the OHLCV bar, the derived indicator
    columns (NaN is [None]) and the [Signal] column.  [Date] is the index
    entry as [strftime('%Y-%m-%d')] prints it. *)
Record Row := mkRow {
  Date : string;
  Open : Q;
  High : Q;
  Low : Q;
  Close : Q;
  Volume : Q;
  Indicators : list (option Q);
  Signal : option Z
}.

Abbreviation DataFrame := (list Row).

(** A freshly fetched bar has no derived column yet. *)
Definition bar (d : string) (o h l c v : Q) : Row := mkRow d o h l c v [] None.

(** [df.empty] (also for the other tables) *)
Definition is_empty {A : Type} (l : list A) : bool :=
  match l with
  | [] => true
  | _ :: _ => false
  end.

Definition is_nan {A : Type} (o : option A) : bool :=
  match o with
  | Some _ => false
  | None => true
  end.

(** [row.isnull().any()] *)
Definition isnull_any (r : Row) : bool :=
  existsb is_nan (Indicators r) || is_nan (Signal r).

(** [df.tail(n)]: [iloc[0:0]] for [n = 0], else [iloc[-n:]]; a negative
    [n] drops the first [-n] rows. *)
Definition tail (n : Z) (df : DataFrame) : DataFrame :=
  if n =? 0 then []
  else if 0 <? n then drop (length df - Z.to_nat n) df
  else drop (Z.to_nat (- n)) df.

Record FeatureRow := mkFeatureRow {
  features : list Q;
  label : Z
}.

Record Trade := mkTrade {
  trade_symbol : string;
  entry_date : string;
  entry_price : Q;
  exit_date : string;
  exit_price : Q;
  quantity : Q;
  realized_pnl : Q
}.

Record BacktestResult := mkBacktestResult {
  initial_capital : Q;
  final_capital : Q;
  total_pnl : Q;
  trade_log : list Trade
}.

(** The dict stored under [symbol_pnl_results[symbol]]. *)
Record PnlSummary := mkPnlSummary {
  summary_initial_capital : Q;
  summary_final_capital : Q;
  summary_total_pnl : Q
}.

(** [config.settings], as far as [main.py] reads it. *)
Record Settings := mkSettings {
  RSI_PERIOD : Z;
  SHORT_MA_PERIOD : Z;
  LONG_MA_PERIOD : Z;
  FEATURES : list string;
  TARGET : string
}.

(** ** The collaborators

Modelled from the spec: the classes [MLPredictor], [Backtester] (with
its [strategy]) and [GoogleSheetsManager] are imported by [main.py] but
not part of it.  Every method that receives a DataFrame returns, next
to its result, the content of that argument object after the call, so
a callee is free to modify what it is handed.  [PS] is the state of the
one [MLPredictor] instance; [prepare_data_for_ml] and
[predict_next_day_movement] only read it, [train_model] replaces it
(section 3, Model: "once trained it is queried"). *)
Record Components (PS : Type) := mkComponents {
new_predictor : PS;
trained : PS -> bool;
prepare_data_for_ml : PS -> DataFrame -> DataFrame * list FeatureRow;
train_model : PS -> list FeatureRow -> list string -> string -> PS * option Q;
predict_next_day_movement : PS -> DataFrame -> list string -> DataFrame * Z;
generate_signals : DataFrame -> DataFrame * DataFrame;
run_backtest : string -> DataFrame -> DataFrame * option BacktestResult;
get_signal_alerts : string -> string -> string -> Q -> string
}.

Arguments new_predictor {PS} _.
Arguments trained {PS} _ _.
Arguments prepare_data_for_ml {PS} _ _ _.
Arguments train_model {PS} _ _ _ _ _.
Arguments predict_next_day_movement {PS} _ _ _ _.
Arguments generate_signals {PS} _ _.
Arguments run_backtest {PS} _ _ _.
Arguments get_signal_alerts {PS} _ _ _ _ _.

(** ** Observable calls *)

(** A call of a collaborator, with the content of the DataFrame it was
    handed (and, for a prediction, the value it returned). *)
Inductive Event :=
| EvPrepare (symbol : string) (arg : DataFrame)
| EvTrain (symbol : string) (ml_data : list FeatureRow)
| EvBacktest (symbol : string) (arg : DataFrame)
| EvLogTradeSignals (logs : list Trade)
| EvUpdateWinRatio (logs : list Trade)
| EvUpdateSummaryPnl (summary : gmap string PnlSummary)
| EvGenerateSignals (symbol : string) (arg : DataFrame)
| EvPredict (symbol : string) (arg : DataFrame) (pred : Z)
| EvAlert (symbol : string) (text : string).

(** The symbol an event belongs to; the sink deliveries belong to none. *)
Definition event_symbol (e : Event) : option string :=
  match e with
  | EvPrepare s _ | EvTrain s _ | EvBacktest s _
  | EvGenerateSignals s _ | EvPredict s _ _ | EvAlert s _ => Some s
  | EvLogTradeSignals _ | EvUpdateWinRatio _ | EvUpdateSummaryPnl _ => None
  end.

(** The numbered section of [run_algo_prototype] a call is made from. *)
Definition event_stage (e : Event) : nat :=
  match e with
  | EvPrepare _ _ | EvTrain _ _ => 1
  | EvBacktest _ _ => 2
  | EvLogTradeSignals _ | EvUpdateWinRatio _ | EvUpdateSummaryPnl _ => 3
  | EvGenerateSignals _ _ | EvPredict _ _ _ | EvAlert _ _ => 4
  end%nat.

Inductive Exn :=
| UnboundLocalError (name : string).

(** How a run ends: the last line is reached, the early [return] of the
    empty-mapping check is taken, or an exception leaves the function. *)
Inductive Outcome :=
| Finished
| Exited
| Uncaught (e : Exn).

(** ** Run state *)

Abbreviation loc := nat (only parsing).

Section State.
Context {PS : Type}.

(** The object store and the local variables of [run_algo_prototype].
    [next_day_pred] is [None] while the name is unbound. *)
Record RunState := mkRunState {
  heap : list DataFrame;
  ml_predictor_instance : PS;
  all_trade_logs : list Trade;
  symbol_pnl_results : gmap string PnlSummary;
  ml_accuracies : gmap string (option Q);
  next_day_pred : option Z;
  trace : list Event
}.

Definition set_heap (h : list DataFrame) (st : RunState) : RunState :=
  mkRunState h (ml_predictor_instance st) (all_trade_logs st)
    (symbol_pnl_results st) (ml_accuracies st) (next_day_pred st) (trace st).

Definition set_predictor (p : PS) (st : RunState) : RunState :=
  mkRunState (heap st) p (all_trade_logs st)
    (symbol_pnl_results st) (ml_accuracies st) (next_day_pred st) (trace st).

Definition set_trade_logs (t : list Trade) (st : RunState) : RunState :=
  mkRunState (heap st) (ml_predictor_instance st) t
    (symbol_pnl_results st) (ml_accuracies st) (next_day_pred st) (trace st).

Definition set_pnl_results (m : gmap string PnlSummary) (st : RunState)
  : RunState :=
  mkRunState (heap st) (ml_predictor_instance st) (all_trade_logs st)
    m (ml_accuracies st) (next_day_pred st) (trace st).

Definition set_accuracies (m : gmap string (option Q)) (st : RunState)
  : RunState :=
  mkRunState (heap st) (ml_predictor_instance st) (all_trade_logs st)
    (symbol_pnl_results st) m (next_day_pred st) (trace st).

Definition set_next_day_pred (v : option Z) (st : RunState) : RunState :=
  mkRunState (heap st) (ml_predictor_instance st) (all_trade_logs st)
    (symbol_pnl_results st) (ml_accuracies st) v (trace st).

Definition emit (e : Event) (st : RunState) : RunState :=
  mkRunState (heap st) (ml_predictor_instance st) (all_trade_logs st)
    (symbol_pnl_results st) (ml_accuracies st) (next_day_pred st)
    (trace st ++ [e]).

(** The content of the object a reference points to. *)
Definition deref (st : RunState) (l : loc) : DataFrame :=
  default [] (heap st !! l).

(** [.copy()]: a new object with the same content. *)
Definition copy (df : DataFrame) (st : RunState) : loc * RunState :=
  (length (heap st), set_heap (heap st ++ [df]) st).

(** Calling [f] on the object at [l]: [f] sees its content and may leave
    another content behind. *)
Definition call_on {R : Type} (l : loc) (f : DataFrame -> DataFrame * R)
    (st : RunState) : R * RunState :=
  let '(arg', r) := f (deref st l) in
  (r, set_heap (<[l := arg']> (heap st)) st).

Inductive Result :=
| Ok (st : RunState)
| Raise (e : Exn) (st : RunState).

Definition state_of (r : Result) : RunState :=
  match r with
  | Ok st => st
  | Raise _ st => st
  end.
End State.

Arguments RunState : clear implicits.
Arguments Result : clear implicits.

(** ** [run_algo_prototype] *)

Section Orchestrator.
Context {PS : Type}.
Variable C : Components PS.
Variable settings : Settings.

(** [historical_data.items()]: the symbols in dict order, each with the
    reference to its DataFrame. *)
Definition Items : Type := list (string * loc).

(** Section 1 of the function, the body of the loop at lines 58-67. *)
Definition train_symbol (item : string * loc) (st : RunState PS)
  : RunState PS :=
  let '(symbol, l) := item in
  let df := deref st l in
  if is_empty df then st
  else
    let '(c, st) := copy df st in
    let st := emit (EvPrepare symbol (deref st c)) st in
    let '(ml_data, st) :=
      call_on c (prepare_data_for_ml C (ml_predictor_instance st)) st in
    if is_empty ml_data then st
    else
      let st := emit (EvTrain symbol ml_data) st in
      let '(p, accuracy) :=
        train_model C (ml_predictor_instance st) ml_data
          (FEATURES settings) (TARGET settings) in
      set_accuracies (<[symbol := accuracy]> (ml_accuracies st))
        (set_predictor p st).

(** Section 2, the body of the loop at lines 72-89. *)
Definition backtest_symbol (item : string * loc) (st : RunState PS)
  : RunState PS :=
  let '(symbol, l) := item in
  let df := deref st l in
  if is_empty df then st
  else
    let '(c, st) := copy df st in
    let st := emit (EvBacktest symbol (deref st c)) st in
    let '(results, st) := call_on c (run_backtest C symbol) st in
    match results with
    | Some r =>
        let st :=
          set_pnl_results
            (<[symbol := mkPnlSummary (initial_capital r) (final_capital r)
                           (total_pnl r)]> (symbol_pnl_results st)) st in
        if is_empty (trade_log r) then st
        else set_trade_logs (all_trade_logs st ++ trade_log r) st
    | None => st
    end.

(** Section 3, lines 93-106. *)
Definition update_sheets (st : RunState PS) : RunState PS :=
  let st :=
    if is_empty (all_trade_logs st) then st
    else emit (EvUpdateWinRatio (all_trade_logs st))
           (emit (EvLogTradeSignals (all_trade_logs st)) st) in
  if decide (symbol_pnl_results st = ∅) then st
  else emit (EvUpdateSummaryPnl (symbol_pnl_results st)) st.

Definition required_rows_for_indicators : Z :=
  Z.max (Z.max (RSI_PERIOD settings) (SHORT_MA_PERIOD settings))
    (LONG_MA_PERIOD settings) + 1.

Definition ml_window_rows : Z := Z.max (RSI_PERIOD settings) 26 + 2.

(** Lines 127-135: the signal, close and date reported for the latest
    day, given the full series and the strategy's output on the window. *)
Definition current_signal_of (df processed_latest_data : DataFrame)
  : Z * Q * string :=
  let unreliable :=
    (0,
     match last df with Some r => Close r | None => 0%Q end,
     match last df with Some r => Date r | None => "N/A" end) in
  match last processed_latest_data with
  | None => unreliable
  | Some r =>
      if isnull_any r then unreliable
      else
        match Signal r with
        | Some s => (s, Close r, Date r)
        | None => unreliable
        end
  end.

Definition signal_type_of (current_signal : Z) : string :=
  if current_signal =? 1 then "BUY"
  else if current_signal =? -1 then "SELL"
  else "HOLD".

Definition ml_pred_text_of (next_day_pred : Z) : string :=
  if next_day_pred =? 1 then "Up"
  else if next_day_pred =? 0 then "Down/No Change"
  else "N/A - Prediction Failed".

(** Lines 159-161. *)
Definition send_alert (symbol current_date signal_type : string)
    (current_close : Q) (ml_pred_text : string) (st : RunState PS)
  : RunState PS :=
  let alert_message :=
    get_signal_alerts C symbol current_date signal_type current_close in
  let alert_message :=
    String.append alert_message
      (String.append (String "010"%char "ML Prediction (Next Day): ")
         ml_pred_text) in
  emit (EvAlert symbol alert_message) st.

(** Section 4, the body of the loop at lines 110-161.  Reading
    [next_day_pred] while it is unbound raises. *)
Definition signal_symbol (item : string * loc) (st : RunState PS)
  : Result PS :=
  let '(symbol, l) := item in
  let df := deref st l in
  if is_empty df then Ok st
  else
    let '(latest_data_for_signal, st) :=
      copy (tail required_rows_for_indicators df) st in
    if is_empty (deref st latest_data_for_signal) then Ok st
    else
      let st :=
        emit (EvGenerateSignals symbol (deref st latest_data_for_signal)) st in
      let '(processed_latest_data, st) :=
        call_on latest_data_for_signal (generate_signals C) st in
      let '(current_signal, current_close, current_date) :=
        current_signal_of df processed_latest_data in
      let signal_type := signal_type_of current_signal in
      let '(ml_prediction_input_data, st) :=
        copy (tail ml_window_rows df) st in
      let '(ml_pred_text, st) :=
        if negb (is_empty (deref st ml_prediction_input_data))
           && trained C (ml_predictor_instance st)
        then
          let arg := deref st ml_prediction_input_data in
          let '(pred, st) :=
            call_on ml_prediction_input_data
              (fun d =>
                 predict_next_day_movement C (ml_predictor_instance st) d
                   (FEATURES settings)) st in
          let st := emit (EvPredict symbol arg pred) st in
          (ml_pred_text_of pred, set_next_day_pred (Some pred) st)
        else ("N/A - Model Not Trained or Insufficient Data", st) in
      if negb (current_signal =? 0) then
        Ok (send_alert symbol current_date signal_type current_close
              ml_pred_text st)
      else
        match next_day_pred st with
        | None => Raise (UnboundLocalError "next_day_pred") st
        | Some p =>
            if negb (p =? -1) then
              Ok (send_alert symbol current_date signal_type current_close
                    ml_pred_text st)
            else Ok st
        end.

(** A [for] loop whose body cannot raise. *)
Fixpoint for_each (body : string * loc -> RunState PS -> RunState PS)
    (items : Items) (st : RunState PS) : RunState PS :=
  match items with
  | [] => st
  | item :: rest => for_each body rest (body item st)
  end.

(** The loop of section 4: an exception ends it. *)
Fixpoint signal_loop (items : Items) (st : RunState PS) : Result PS :=
  match items with
  | [] => Ok st
  | item :: rest =>
      match signal_symbol item st with
      | Ok st => signal_loop rest st
      | Raise e st => Raise e st
      end
  end.

(** The state at line 50: the fetched DataFrames are the first objects
    of the store, the accumulators are empty, [next_day_pred] is not
    bound. *)
Definition initial_state (historical_data : list (string * DataFrame))
  : RunState PS :=
  mkRunState (historical_data.*2) (new_predictor C) [] ∅ ∅ None [].

Definition items_of (historical_data : list (string * DataFrame)) : Items :=
  zip (historical_data.*1) (seq 0 (length historical_data)).

(** The state after lines 56-106. *)
Definition before_signals (historical_data : list (string * DataFrame))
  : RunState PS :=
  let items := items_of historical_data in
  update_sheets
    (for_each backtest_symbol items
       (for_each train_symbol items (initial_state historical_data))).

Definition run_algo_prototype (historical_data : list (string * DataFrame))
  : Outcome * RunState PS :=
  if is_empty historical_data then (Exited, initial_state historical_data)
  else
    match signal_loop (items_of historical_data)
            (before_signals historical_data) with
    | Ok st => (Finished, st)
    | Raise e st => (Uncaught e, st)
    end.
End Orchestrator.

(** ** A reference implementation of the collaborators

Modelled from the spec: sections 3, 4.1, 4.2 and 4.3 describe the
strategy, the backtest engine and the predictor that [main.py] imports
but which are missing from the sources.  The definitions below follow
those sections with the conventional formulas where the spec names an
indicator without giving one (simple moving averages, simple-average
RSI, 12/26/9 exponential averages for MACD), on exact rationals.  They
serve to run the orchestrator on concrete data; the statements about
the orchestrator itself hold for any [Components]. *)
Module Reference.

Definition Qsum (xs : list Q) : Q := foldr Qplus 0%Q xs.

Definition Qmean (xs : list Q) : Q := (Qsum xs / inject_Z (Z.of_nat (length xs)))%Q.

Definition Qlt_bool (a b : Q) : bool := negb (Qle_bool b a).

(** The [n] values ending at index [i]; undefined during the first
    [n - 1] bars. *)
Definition rolling (n i : nat) (xs : list Q) : option (list Q) :=
  if (n =? 0)%nat then None
  else if (n <=? i + 1)%nat then Some (take n (drop (i + 1 - n) xs))
  else None.

Definition sma (n i : nat) (xs : list Q) : option Q :=
  Qmean <$> rolling n i xs.

(** Bar-to-bar changes; the first bar has none and counts as zero. *)
Fixpoint diffs (prev : Q) (xs : list Q) : list Q :=
  match xs with
  | [] => []
  | x :: rest => (x - prev)%Q :: diffs x rest
  end.

Definition deltas (xs : list Q) : list Q :=
  match xs with
  | [] => []
  | x :: rest => 0%Q :: diffs x rest
  end.

Definition gain (d : Q) : Q := if Qle_bool 0 d then d else 0%Q.
Definition loss (d : Q) : Q := if Qle_bool 0 d then 0%Q else (- d)%Q.

(** RSI over [n] changes, 100 * gain / (gain + loss), and 100 when there
    is no loss in the window; undefined only while warming up. *)
Definition rsi (n i : nat) (xs : list Q) : option Q :=
  w ← rolling n i (deltas xs);
  let g := Qsum (gain <$> w) in
  let l := Qsum (loss <$> w) in
  if Qle_bool l 0 then Some 100%Q else Some (100 * g / (g + l))%Q.

(** Exponential average with smoothing 2 / (n + 1), one value per bar,
    kept in lowest terms. *)
Fixpoint ema_from (n : nat) (prev : Q) (xs : list Q) : list Q :=
  match xs with
  | [] => []
  | x :: rest =>
      let a := (2 / inject_Z (Z.of_nat n + 1))%Q in
      let e := Qred (a * x + (1 - a) * prev)%Q in
      e :: ema_from n e rest
  end.

Definition ema (n : nat) (xs : list Q) : list Q :=
  match xs with
  | [] => []
  | x :: rest => x :: ema_from n x rest
  end.

Definition macd_line (xs : list Q) : list Q :=
  zip_with (fun fast slow => Qred (fast - slow)%Q) (ema 12 xs) (ema 26 xs).

(** MACD line and signal line of every bar, undefined for the first 25
    bars. *)
Definition macd (xs : list Q) : list (option (Q * Q)) :=
  let line := macd_line xs in
  imap (fun i ms => if (26 <=? i + 1)%nat then Some ms else None)
    (zip line (ema 9 line)).

Section WithSettings.
Variable settings : Settings.

Definition rsi_period : nat := Z.to_nat (RSI_PERIOD settings).
Definition short_period : nat := Z.to_nat (SHORT_MA_PERIOD settings).
Definition long_period : nat := Z.to_nat (LONG_MA_PERIOD settings).

Definition OVERBOUGHT : Q := 70%Q.

(** RSI, short and long average of bar [i]. *)
Definition indicators_at (closes : list Q) (i : nat) : list (option Q) :=
  [rsi rsi_period i closes; sma short_period i closes;
   sma long_period i closes].

Definition crossed_up (prev cur : list (option Q)) : bool :=
  match prev, cur with
  | [_; Some ps; Some pl], [_; Some s; Some l] =>
      Qle_bool ps pl && Qlt_bool l s
  | _, _ => false
  end.

Definition crossed_down (prev cur : list (option Q)) : bool :=
  match prev, cur with
  | [_; Some ps; Some pl], [_; Some s; Some l] =>
      Qle_bool pl ps && Qlt_bool s l
  | _, _ => false
  end.

Definition rsi_below (cur : list (option Q)) : bool :=
  match cur with
  | Some r :: _ => Qlt_bool r OVERBOUGHT
  | _ => false
  end.

Definition rsi_crossed_above (prev cur : list (option Q)) : bool :=
  match prev, cur with
  | Some pr :: _, Some r :: _ =>
      Qle_bool pr OVERBOUGHT && Qlt_bool OVERBOUGHT r
  | _, _ => false
  end.

(** Section 4.1: the signal of a bar, from the indicators of the bar
    before, its own, and whether an earlier BUY is still open. *)
Definition signal_rule (prev cur : list (option Q)) (holding : bool)
  : option Z :=
  if existsb is_nan cur then None
  else if crossed_up prev cur && rsi_below cur then Some 1
  else if crossed_down prev cur
          || (rsi_crossed_above prev cur && holding) then Some (-1)
  else Some 0.

Definition holding_after (holding : bool) (s : option Z) : bool :=
  match s with
  | Some 1 => true
  | Some (-1) => false
  | _ => holding
  end.

Fixpoint assign_signals (closes : list Q) (i : nat)
    (prev : list (option Q)) (holding : bool) (rows : DataFrame)
  : DataFrame :=
  match rows with
  | [] => []
  | r :: rest =>
      let cur := indicators_at closes i in
      let s := signal_rule prev cur holding in
      mkRow (Date r) (Open r) (High r) (Low r) (Close r) (Volume r) cur s
        :: assign_signals closes (S i) cur (holding_after holding s) rest
  end.

(** [strategy.generate_signals]: adds the columns to the frame it is
    given and returns it. *)
Definition ref_generate_signals (df : DataFrame) : DataFrame * DataFrame :=
  let out := assign_signals (Close <$> df) 0 [None; None; None] false df in
  (out, out).

(** Section 4.2: the account of the simulation. *)
Record Position := mkPosition {
  position_entry_date : string;
  position_entry_price : Q;
  position_quantity : Q
}.

Record Account := mkAccount {
  capital : Q;
  position : option Position;
  trades : list Trade
}.

Definition backtest_step (symbol : string) (acc : Account) (r : Row)
  : Account :=
  match Signal r, position acc with
  | Some 1, None =>
      mkAccount 0%Q
        (Some (mkPosition (Date r) (Close r) (capital acc / Close r)%Q))
        (trades acc)
  | Some (-1), Some p =>
      mkAccount (capital acc + position_quantity p * Close r)%Q None
        (trades acc ++
         [mkTrade symbol (position_entry_date p) (position_entry_price p)
            (Date r) (Close r) (position_quantity p)
            (position_quantity p * (Close r - position_entry_price p))%Q])
  | _, _ => acc
  end.

Definition realized (ts : list Trade) : Q := Qsum (realized_pnl <$> ts).

Definition unrealized (acc : Account) (last_close : Q) : Q :=
  match position acc with
  | Some p => (position_quantity p * (last_close - position_entry_price p))%Q
  | None => 0%Q
  end.

Definition market_value (acc : Account) (last_close : Q) : Q :=
  match position acc with
  | Some p => (position_quantity p * last_close)%Q
  | None => 0%Q
  end.

(** Cash plus the cost of what is held. *)
Definition book_value (acc : Account) : Q :=
  match position acc with
  | Some p =>
      (capital acc + position_quantity p * position_entry_price p)%Q
  | None => capital acc
  end.

Definition final_account (symbol : string) (rows : DataFrame)
    (initial : Q) : Account :=
  foldl (backtest_step symbol) (mkAccount initial None []) rows.

(** The result of replaying [rows] from [initial]; empty when there is
    no bar or no bar carries a defined signal.  An open position is
    marked to the final close. *)
Definition simulate (symbol : string) (rows : DataFrame) (initial : Q)
  : option BacktestResult :=
  match last rows with
  | None => None
  | Some final_row =>
      if forallb (fun r => is_nan (Signal r)) rows then None
      else
        let acc := final_account symbol rows initial in
        Some (mkBacktestResult initial
                (capital acc + market_value acc (Close final_row))%Q
                (realized (trades acc) + unrealized acc (Close final_row))%Q
                (trades acc))
  end.

Definition INITIAL_CAPITAL : Q := 100000%Q.

Definition ref_run_backtest (symbol : string) (df : DataFrame)
  : DataFrame * option BacktestResult :=
  let '(df, bars_with_signal) := ref_generate_signals df in
  (df, simulate symbol bars_with_signal INITIAL_CAPITAL).
(** Section 4.3: features, training and prediction. *)
Definition MIN_TRAINING_ROWS : nat := 30.

(** RSI, MACD line, MACD signal line of every bar. *)
Definition feature_columns (closes : list Q)
  : list (option Q * option (Q * Q)) :=
  zip ((fun i => rsi rsi_period i closes) <$> seq 0 (length closes))
    (macd closes).

Definition feature_values (r : Row) (cols : option Q * option (Q * Q))
  : option (list Q) :=
  x ← cols.1;
  m ← cols.2;
  Some [x; m.1; m.2; Volume r].

(** The label of a bar: 1 when the next close is not lower, else 0. *)
Definition movement (close next_close : Q) : Z :=
  if Qle_bool close next_close then 1 else 0.

(** One row per bar whose features are defined and which has a next
    bar; the final bar has no label and is dropped. *)
Fixpoint feature_rows (rows : DataFrame)
    (cols : list (option Q * option (Q * Q))) : list FeatureRow :=
  match rows, cols with
  | r :: rest, c :: cols' =>
      match rest, feature_values r c with
      | r' :: _, Some fs =>
          mkFeatureRow fs (movement (Close r) (Close r'))
            :: feature_rows rest cols'
      | _, _ => feature_rows rest cols'
      end
  | _, _ => []
  end.

Definition with_features (df : DataFrame)
    (cols : list (option Q * option (Q * Q))) : DataFrame :=
  zip_with
    (fun r c =>
       mkRow (Date r) (Open r) (High r) (Low r) (Close r) (Volume r)
         [c.1; fst <$> c.2; snd <$> c.2] (Signal r)) df cols.

Record Model := mkModel {
  fitted_on : list FeatureRow;
  majority : Z
}.

(** The binary classifier: the class seen most often in training. *)
Definition fit (rows : list FeatureRow) : Model :=
  let ups := length (List.filter (fun r => label r =? 1) rows) in
  mkModel rows (if (length rows <=? 2 * ups)%nat then 1 else 0).

Definition accuracy_on (m : Model) (rows : list FeatureRow) : Q :=
  (inject_Z (Z.of_nat
               (length (List.filter (fun r => label r =? majority m) rows)))
   / inject_Z (Z.of_nat (length rows)))%Q.

(** The predictor instance is untrained ([None]) or holds its model. *)
Definition ref_prepare_data_for_ml (p : option Model) (df : DataFrame)
  : DataFrame * list FeatureRow :=
  let cols := feature_columns (Close <$> df) in
  let rows := feature_rows df cols in
  (with_features df cols,
   if (length rows <? MIN_TRAINING_ROWS)%nat then [] else rows).

Definition ref_train_model (p : option Model) (rows : list FeatureRow)
    (feature_names : list string) (target_name : string)
  : option Model * option Q :=
  if is_empty rows then (p, None)
  else
    let k := (length rows * 4 / 5)%nat in
    let m := fit (take k rows) in
    (Some m, Some (accuracy_on m (drop k rows))).

Definition ref_predict_next_day_movement (p : option Model)
    (recent_bars : DataFrame) (feature_names : list string)
  : DataFrame * Z :=
  let cols := feature_columns (Close <$> recent_bars) in
  (with_features recent_bars cols,
   match p, last recent_bars, last cols with
   | Some m, Some r, Some c =>
       match feature_values r c with
       | Some _ => majority m
       | None => -1
       end
   | _, _, _ => -1
   end).

Definition ref_get_signal_alerts (symbol date signal_type : string)
    (price : Q) : string :=
  String.append symbol
    (String.append ": "
       (String.append signal_type (String.append " on " date))).

Definition components : Components (option Model) :=
  mkComponents (option Model) None (fun p => negb (is_nan p))
    ref_prepare_data_for_ml ref_train_model ref_predict_next_day_movement
    ref_generate_signals ref_run_backtest ref_get_signal_alerts.
End WithSettings.
End Reference.

(** ** Ways a run can end *)

(** The calls that train, backtest or deliver to the sink. *)
Definition trains_backtests_or_delivers (e : Event) : bool :=
  match e with
  | EvPrepare _ _ | EvTrain _ _ | EvBacktest _ _
  | EvLogTradeSignals _ | EvUpdateWinRatio _ | EvUpdateSummaryPnl _ => true
  | EvGenerateSignals _ _ | EvPredict _ _ _ | EvAlert _ _ => false
  end.

Definition returns (o : Outcome) : Prop := o = Finished \/ o = Exited.

(** The run returns without training, backtesting or sink delivery. *)
Definition aborts {PS : Type} (r : Outcome * RunState PS) : Prop :=
  returns r.1
  /\ Forall (fun e => trains_backtests_or_delivers e = false) (trace r.2).

Definition no_symbol_has_data (hd : list (string * DataFrame)) : Prop :=
  Forall (fun entry => entry.2 = []) hd.

(** Every call made for a symbol is for a symbol that has data. *)
Definition called_with_data (hd : list (string * DataFrame)) (e : Event)
  : Prop :=
  forall s, event_symbol e = Some s -> exists df, (s, df) ∈ hd /\ df <> [].

(** ** Order of the calls *)

(** A call for one symbol, later a call for another, later again a call
    for the first: the stages of two symbols are interleaved. *)
Definition interleaved (tr : list Event) : Prop :=
  exists (i j k : nat) e1 e2 e3 s1 s2,
    (i < j)%nat /\ (j < k)%nat
    /\ tr !! i = Some e1 /\ tr !! j = Some e2 /\ tr !! k = Some e3
    /\ event_symbol e1 = Some s1 /\ event_symbol e2 = Some s2
    /\ event_symbol e3 = Some s1 /\ s1 <> s2.

(** One symbol is fully processed before the next begins. *)
Definition sequential_per_symbol (tr : list Event) : Prop := ~ interleaved tr.

(** Calls of section [k] for the symbol [s] only. *)
Definition chunk_of (k : nat) (s : string) (chunk : list Event) : Prop :=
  Forall (fun e => event_stage e = k /\ event_symbol e = Some s) chunk.

(** One pass over [symbols]: the calls fall into one chunk per symbol, in
    order, each chunk holding only calls of section [k] for its symbol. *)
Definition pass (k : nat) (symbols : list string) (tr : list Event) : Prop :=
  exists chunks : list (list Event),
    tr = concat chunks /\ Forall2 (chunk_of k) symbols chunks.

(** ** Windows *)

(** The last [n] rows of a series, all of it when it has fewer. *)
Definition last_rows (n : nat) (df : DataFrame) : DataFrame :=
  drop (length df - n) df.

Section Windows.
Variable settings : Settings.



Definition prediction_window_rows : nat :=
  Z.to_nat (Z.max (RSI_PERIOD settings) 26 + 2).

End Windows.

(** ** The alert condition of section 4 *)

Section AlertCondition.
Context {PS : Type}.
Variable C : Components PS.
Variable settings : Settings.
Implicit Types (st : RunState PS) (s : string) (l : nat).

(** The state of the last iteration of section 4 when it reaches the
    alert condition at line 158. *)
Definition at_alert_condition s l st : RunState PS :=
  let df := deref st l in
  let w := tail (required_rows_for_indicators settings) df in
  let w2 := tail (ml_window_rows settings) df in
  let p := ml_predictor_instance st in
  let q := predict_next_day_movement C p w2 (FEATURES settings) in
  let predicted := negb (is_empty w2) && trained C p in
  mkRunState
    (heap st ++ [(generate_signals C w).1] ++ [if predicted then q.1 else w2])
    p (all_trade_logs st) (symbol_pnl_results st) (ml_accuracies st)
    (if predicted then Some q.2 else next_day_pred st)
    (trace st ++ [EvGenerateSignals s w]
       ++ if predicted then [EvPredict s w2 q.2] else []).

(** The alert of lines 159-161 for the symbol at [l]. *)
Definition alert_of s l st : Event :=
  let df := deref st l in
  let w := tail (required_rows_for_indicators settings) df in
  let w2 := tail (ml_window_rows settings) df in
  let p := ml_predictor_instance st in
  let q := predict_next_day_movement C p w2 (FEATURES settings) in
  let cur := current_signal_of df (generate_signals C w).2 in
  EvAlert s
    (String.append
       (get_signal_alerts C s cur.2 (signal_type_of cur.1.1) cur.1.2)
       (String.append (String "010"%char "ML Prediction (Next Day): ")
          (if negb (is_empty w2) && trained C p then ml_pred_text_of q.2
           else "N/A - Model Not Trained or Insufficient Data"))).

(** The calls a step added to the trace. *)
Definition new_events st (r : Result PS) : list Event :=
  drop (length (trace st)) (trace (state_of r)).

Definition alert_sent s (events : list Event) : Prop :=
  exists text, EvAlert s text ∈ events.
End AlertCondition.

(** ** The HOLD fallback *)

(** The condition of line 127: no latest row, or one with a null field
    (an undefined signal is one). *)
Definition latest_row_unreliable (processed_latest_data : DataFrame) : bool :=
  match last processed_latest_data with
  | None => true
  | Some r => isnull_any r
  end.

Section HoldFallback.
Context {PS : Type}.
Variable C : Components PS.
Variable settings : Settings.

(** C4 as stated, for a run on [hd]: a symbol with an unreliable latest
    row gets HOLD, only the sentinel -1 as prediction, and the run does
    not fail. *)
Definition hold_and_sentinel_on_unreliable_row
    (hd : list (string * DataFrame)) : Prop :=
  forall s df,
    (s, df) ∈ hd -> df <> [] ->
    let processed :=
      (generate_signals C
         (tail (required_rows_for_indicators settings) df)).2 in
    latest_row_unreliable processed = true ->
    (current_signal_of df processed).1.1 = 0
    /\ (forall w v,
           EvPredict s w v ∈ trace (run_algo_prototype C settings hd).2 ->
           v = -1)
    /\ returns (run_algo_prototype C settings hd).1.
End HoldFallback.

(** ** Profit and loss *)

Definition nonzero_close (r : Row) : bool := negb (Qeq_bool (Close r) 0).

(** All prices of the fetched series are different from zero. *)
Definition prices_nonzero (hd : list (string * DataFrame)) : bool :=
  forallb (fun entry => forallb nonzero_close entry.2) hd.

(** ** The classifier *)

Section Classifier.
Context {PS : Type}.
Variable C : Components PS.
Variable settings : Settings.

(** What lines 59-63 do to the predictor for one entry of the mapping. *)
Definition train_on (p : PS) (entry : string * DataFrame) : PS :=
  if is_empty entry.2 then p
  else
    let ml_data := (prepare_data_for_ml C p entry.2).2 in
    if is_empty ml_data then p
    else (train_model C p ml_data (FEATURES settings) (TARGET settings)).1.

(** The one predictor after it went through all symbols in turn. *)
Definition predictor_after_training (hd : list (string * DataFrame)) : PS :=
  foldl train_on (new_predictor C) hd.

(** A predictor of its own for a symbol, trained once on its series. *)
Definition own_model (entry : string * DataFrame) : PS :=
  train_on (new_predictor C) entry.

(** The prediction emitted for a symbol comes from a model trained on
    that symbol's own series. *)
Definition predicted_by_own_model (hd : list (string * DataFrame))
    (e : Event) : Prop :=
  match e with
  | EvPredict s w v =>
      exists df,
        (s, df) ∈ hd
        /\ v = (predict_next_day_movement C (own_model (s, df)) w
                  (FEATURES settings)).2
  | _ => True
  end.

Definition classifier_is_per_symbol (hd : list (string * DataFrame))
  : Prop :=
  Forall (predicted_by_own_model hd)
    (trace (run_algo_prototype C settings hd).2).

(** The prediction comes from the shared predictor as section 1 left
    it. *)
Definition predicted_by_shared_model (hd : list (string * DataFrame))
    (e : Event) : Prop :=
  match e with
  | EvPredict s w v =>
      v = (predict_next_day_movement C (predictor_after_training hd) w
             (FEATURES settings)).2
  | _ => True
  end.

Definition is_training (e : Event) : bool :=
  match e with
  | EvTrain _ _ => true
  | _ => false
  end.

Definition is_prediction (e : Event) : bool :=
  match e with
  | EvPredict _ _ _ => true
  | _ => false
  end.
End Classifier.

(** ** Aggregates of a run *)

Section Aggregates.
Context {PS : Type}.
Variable C : Components PS.

(** The trades one entry of the mapping adds to [all_trade_logs]
    (lines 73-87). *)
Definition symbol_trade_log (entry : string * DataFrame) : list Trade :=
  if is_empty entry.2 then []
  else
    match (run_backtest C entry.1 entry.2).2 with
    | Some r => trade_log r
    | None => []
    end.

(** The summary stored for a non-empty result (lines 80-84). *)
Definition summary_of (r : BacktestResult) : PnlSummary :=
  mkPnlSummary (initial_capital r) (final_capital r) (total_pnl r).

(** What one entry of the mapping does to [symbol_pnl_results]. *)
Definition record_pnl (m : gmap string PnlSummary)
    (entry : string * DataFrame) : gmap string PnlSummary :=
  if is_empty entry.2 then m
  else
    match (run_backtest C entry.1 entry.2).2 with
    | Some r => <[entry.1 := summary_of r]> m
    | None => m
    end.

(** The deliveries of section 3 for given aggregates (lines 93-106). *)
Definition sink_deliveries (logs : list Trade) (pnl : gmap string PnlSummary)
  : list Event :=
  (if is_empty logs then []
   else [EvLogTradeSignals logs; EvUpdateWinRatio logs])
  ++ (if decide (pnl = ∅) then [] else [EvUpdateSummaryPnl pnl]).
End Aggregates.

(** ** The invariant of the stored results *)

(** The trades of [s] in an aggregated trade log. *)
Definition trades_of (s : string) (log : list Trade) : list Trade :=
  filter (fun t => trade_symbol t = s) log.

Section StoredResults.
Context {PS : Type}.
Variable C : Components PS.
Variable settings : Settings.

(** The backtester of [C] returns, for every fetched series, the result
    section 4.2 describes. *)
Definition backtests_as_specified (hd : list (string * DataFrame)) : Prop :=
  forall s df,
    (s, df) ∈ hd ->
    (run_backtest C s df).2 = (Reference.ref_run_backtest settings s df).2.

(** No position remains open at the end of the data of [s]. *)
Definition flat_at_end (s : string) (df : DataFrame) : Prop :=
  Reference.position
    (Reference.final_account s (Reference.ref_generate_signals settings df).2
       Reference.INITIAL_CAPITAL)
  = None.
End StoredResults.

(** ** Symbols that reach the alert condition with HOLD *)

Section ReportsHold.
Context {PS : Type}.
Variable C : Components PS.
Variable settings : Settings.

(** The symbol has data, its signal window is not empty and the signal
    computed at lines 127-135 is 0. *)
Definition reports_hold (entry : string * DataFrame) : bool :=
  let w := tail (required_rows_for_indicators settings) entry.2 in
  negb (is_empty entry.2) && negb (is_empty w)
  && ((current_signal_of entry.2 (generate_signals C w).2).1.1 =? 0).
End ReportsHold.

Definition is_alert_for (s : string) (e : Event) : bool :=
  match e with
  | EvAlert s' _ => bool_decide (s' = s)
  | _ => false
  end.

(** What the calls of sections 1 and 2 are handed: the whole series of
    their symbol, and for a training the feature rows, not empty, that the
    preparation of that series returned. *)
Definition fed_from_fetched_data {PS : Type} (C : Components PS)
    (hd : list (string * DataFrame)) (e : Event) : Prop :=
  match e with
  | EvPrepare s arg | EvBacktest s arg => (s, arg) ∈ hd /\ arg <> []
  | EvTrain s ml_data =>
      ml_data <> []
      /\ exists df p,
          (s, df) ∈ hd /\ df <> []
          /\ ml_data = (prepare_data_for_ml C p df).2
  | _ => True
  end.

(** The alerts sent for a symbol. *)
Definition alerts_for (s : string) (tr : list Event) : list Event :=
  filter (fun e => is_alert_for s e = true) tr.

(** ** Where the recomputes are applied *)

Section RecomputeApplied.
Context {PS : Type}.
Variable C : Components PS.
Variable settings : Settings.


(** Section 4 is certain to come to every symbol: the model is trained,
    or no symbol reaches the alert condition with HOLD. *)
Definition reaches_every_symbol (hd : list (string * DataFrame)) : Prop :=
  trained C (predictor_after_training C settings hd) = true
  \/ Forall (fun entry => reports_hold C settings entry = false) hd.
End RecomputeApplied.

(** ** The alerts of a run *)

Section AlertsOfARun.
Context {PS : Type}.
Variable C : Components PS.
Variable settings : Settings.
Variable hd : list (string * DataFrame).

(** The message of lines 159-160 for a symbol with the series [df], with
    the model as the training pass left it. *)
Definition alert_message (s : string) (df : DataFrame) : string :=
  let w := tail (required_rows_for_indicators settings) df in
  let w2 := tail (ml_window_rows settings) df in
  let P := predictor_after_training C settings hd in
  let cur := current_signal_of df (generate_signals C w).2 in
  String.append
    (get_signal_alerts C s cur.2 (signal_type_of cur.1.1) cur.1.2)
    (String.append (String "010"%char "ML Prediction (Next Day): ")
       (if trained C P
        then
          ml_pred_text_of
            (predict_next_day_movement C P w2 (FEATURES settings)).2
        else "N/A - Model Not Trained or Insufficient Data")).

(** An alert is due for a series: it has data and a signal window, and
    its current signal is not 0 or the trained model predicts something
    other than -1 for it. *)
Definition alert_due (df : DataFrame) : Prop :=
  let w := tail (required_rows_for_indicators settings) df in
  let w2 := tail (ml_window_rows settings) df in
  let P := predictor_after_training C settings hd in
  let cur := current_signal_of df (generate_signals C w).2 in
  df <> [] /\ w <> []
  /\ (cur.1.1 <> 0
      \/ (trained C P = true
          /\ (predict_next_day_movement C P w2 (FEATURES settings)).2 <> -1)).

(** An alert is for a symbol of the mapping for which one is due, with
    the message of that symbol. *)
Definition alert_from_own_data (e : Event) : Prop :=
  match e with
  | EvAlert s text =>
      exists df, (s, df) ∈ hd /\ alert_due df /\ text = alert_message s df
  | _ => True
  end.
End AlertsOfARun.

(** ** Module start-up *)

(** Lines 12-14: [project_root] is put in front of [sys.path] unless it is
    already in it. *)
Definition add_project_root (project_root : string) (sys_path : list string)
  : list string :=
  if bool_decide (project_root ∈ sys_path) then sys_path
  else project_root :: sys_path.

(** ** Concrete data *)

Module Examples.
Definition FEATURE_NAMES : list string :=
  ["RSI"; "MACD"; "MACD_Signal"; "Volume"].

(** Periods of the usual size, and small ones for short series. *)
Definition usual_settings : Settings :=
  mkSettings 14 20 50 FEATURE_NAMES "Target".

Definition small_settings : Settings :=
  mkSettings 2 2 3 FEATURE_NAMES "Target".

Definition two_digits (n : nat) : string :=
  if (n <? 10)%nat then String.append "0" (pretty n) else pretty n.

(** The [i]-th trading day, as a date of 2024 (28 days to a month). *)
Definition date_of (i : nat) : string :=
  String.append "2024-"
    (String.append (two_digits (i / 28 + 1))
       (String.append "-" (two_digits (i mod 28 + 1)))).

(** A series with the given closes, one bar a day. *)
Definition series (closes : list Q) : DataFrame :=
  imap (fun i c => bar (date_of i) c c c c 1000%Q) closes.

Definition rising (n : nat) : DataFrame :=
  series ((fun i => inject_Z (100 + Z.of_nat i)) <$> seq 0 n).

Definition falling (n : nat) : DataFrame :=
  series ((fun i => inject_Z (200 - Z.of_nat i)) <$> seq 0 n).

(** A series whose price never moves. *)
Definition flat (n : nat) : DataFrame := series (replicate n 100%Q).

(** Four bars whose last one is a BUY under [small_settings]: the short
    average crosses above the long one with RSI at 68.75. *)
Definition buy_bars : DataFrame := series [10; 10; 9; 11.2]%Q.

(** Four bars whose last one is a plain HOLD under [small_settings]. *)
Definition hold_bars : DataFrame := series [10; 9; 8; 12]%Q.

Definition small_components : Components (option (Reference.Model)) :=
  Reference.components small_settings.

Definition usual_components : Components (option (Reference.Model)) :=
  Reference.components usual_settings.

(** Two symbols with enough history to train on, one rising all the
    time and one falling all the time. *)
Definition rising_and_falling : list (string * DataFrame) :=
  [("A", rising 60); ("B", falling 60)].

(** A symbol with enough history to train on and one with fewer bars
    than the long average needs. *)
Definition long_and_short : list (string * DataFrame) :=
  [("A", rising 60); ("B", rising 30)].

(** The state of the run on [long_and_short] when section 4 comes to
    B. *)
Definition state_at_B : RunState (option Reference.Model) :=
  state_of
    (signal_symbol usual_components usual_settings ("A", 0%nat)
       (before_signals usual_components usual_settings long_and_short)).

(** Six bars with a BUY on the fourth and a SELL on the sixth under
    [small_settings]. *)
Definition round_trip_bars : DataFrame := series [10; 10; 9; 11.2; 9; 8]%Q.

(** A symbol with a closed trade, one without data, one with a BUY still
    open. *)
Definition three_symbols : list (string * DataFrame) :=
  [("A", round_trip_bars); ("B", []); ("C", buy_bars)].

(** Two symbols with a few bars each. *)
Definition two_short_series : list (string * DataFrame) :=
  [("A", buy_bars); ("B", buy_bars)].

(** The same mapping with other bars for the first symbol only. *)
Definition hold_then_buy : list (string * DataFrame) :=
  [("A", hold_bars); ("B", buy_bars)].
End Examples.
(** ** The object store under [copy] and calls *)

Section Frame.
Context {PS : Type}.
Implicit Types (st : RunState PS) (df : DataFrame).

Lemma lookup_fresh (h : list DataFrame) df :
  (h ++ [df]) !! length h = Some df.
Proof. by apply list_lookup_middle. Qed.

Lemma insert_fresh (h : list DataFrame) df df' :
  <[length h := df']> (h ++ [df]) = h ++ [df'].
Proof.
  rewrite insert_app_r_alt by lia.
  by rewrite Nat.sub_diag.
Qed.

Lemma deref_prefix (h0 : list DataFrame) st l df :
  h0 `prefix_of` heap st -> h0 !! l = Some df -> deref st l = df.
Proof.
  intros [k Hk] Hl. unfold deref. rewrite Hk.
  by rewrite (lookup_app_l_Some _ _ _ _ Hl).
Qed.

Lemma prefix_snoc (h0 h : list DataFrame) df :
  h0 `prefix_of` h -> h0 `prefix_of` h ++ [df].
Proof. intros H. by apply prefix_app_r. Qed.
End Frame.

(** Unfolds one loop body down to the store operations. *)
Ltac open_step :=
  cbv beta delta [train_symbol backtest_symbol signal_symbol update_sheets
                  send_alert copy call_on deref emit set_heap set_predictor
                  set_trade_logs set_pnl_results set_accuracies
                  set_next_day_pred] in *;
  cbn in *;
  rewrite ?lookup_fresh, ?insert_fresh; cbn.

(** ** What one iteration of each loop does

Each body, written out as the state it leaves behind. *)

Section Steps.
Context {PS : Type}.
Variable C : Components PS.
Variable settings : Settings.
Implicit Types (st : RunState PS) (s : string) (l : nat).

Lemma train_symbol_eq s l st :
  let df := deref st l in
  let p := ml_predictor_instance st in
  let r := prepare_data_for_ml C p df in
  let t := train_model C p r.2 (FEATURES settings) (TARGET settings) in
  train_symbol C settings (s, l) st =
    if is_empty df then st
    else if is_empty r.2 then
      mkRunState (heap st ++ [r.1]) p (all_trade_logs st)
        (symbol_pnl_results st) (ml_accuracies st) (next_day_pred st)
        (trace st ++ [EvPrepare s df])
    else
      mkRunState (heap st ++ [r.1]) t.1 (all_trade_logs st)
        (symbol_pnl_results st) (<[s := t.2]> (ml_accuracies st))
        (next_day_pred st) (trace st ++ [EvPrepare s df; EvTrain s r.2]).
Proof.
  intros df p r t. subst df p r t. open_step.
  destruct (is_empty _); [done|]. open_step.
  destruct (prepare_data_for_ml C _ _) as [arg' ml_data]; open_step.
  destruct (is_empty ml_data); open_step; [done|].
  destruct (train_model C _ _ _ _) as [p acc]; open_step.
  by rewrite <- app_assoc.
Qed.

Lemma backtest_symbol_eq s l st :
  let df := deref st l in
  let b := run_backtest C s df in
  let st1 :=
    mkRunState (heap st ++ [b.1]) (ml_predictor_instance st)
      (all_trade_logs st) (symbol_pnl_results st) (ml_accuracies st)
      (next_day_pred st) (trace st ++ [EvBacktest s df]) in
  backtest_symbol C (s, l) st =
    if is_empty df then st
    else
      match b.2 with
      | None => st1
      | Some r =>
          let summary :=
            mkPnlSummary (initial_capital r) (final_capital r) (total_pnl r) in
          mkRunState (heap st1) (ml_predictor_instance st)
            (if is_empty (trade_log r) then all_trade_logs st
             else all_trade_logs st ++ trade_log r)
            (<[s := summary]> (symbol_pnl_results st)) (ml_accuracies st)
            (next_day_pred st) (trace st1)
      end.
Proof.
  intros df b st1. subst df b st1. open_step.
  destruct (is_empty _); [done|]. open_step.
  destruct (run_backtest C s _) as [arg' [r|]]; open_step; [|done].
  by destruct (is_empty (trade_log r)).
Qed.

Lemma signal_symbol_eq s l st :
  let df := deref st l in
  let w := tail (required_rows_for_indicators settings) df in
  let cur := current_signal_of df (generate_signals C w).2 in
  let st' := at_alert_condition C settings s l st in
  signal_symbol C settings (s, l) st =
    if is_empty df then Ok st
    else if is_empty w then Ok (set_heap (heap st ++ [w]) st)
    else if negb (cur.1.1 =? 0) then Ok (emit (alert_of C settings s l st) st')
    else
      match next_day_pred st' with
      | None => Raise (UnboundLocalError "next_day_pred") st'
      | Some p =>
          if negb (p =? -1) then Ok (emit (alert_of C settings s l st) st') else Ok st'
      end.
Proof.
  intros df w cur st'. subst df w cur st'.
  unfold at_alert_condition, alert_of. open_step.
  destruct (is_empty _); [done|]. open_step.
  destruct (is_empty (tail _ _)); [done|]. open_step.
  destruct (generate_signals C _) as [arg' processed]; open_step.
  destruct (current_signal_of _ _) as [[sig close] date]; open_step.
  destruct (negb (is_empty _) && trained C _); open_step.
  - destruct (predict_next_day_movement C _ _ _) as [arg2 pred]; open_step.
    rewrite <- !app_assoc; cbn.
    destruct (negb (sig =? 0)); [done|].
    by destruct (negb (pred =? -1)).
  - rewrite <- ?app_assoc; cbn; rewrite ?app_nil_r.
    destruct (negb (sig =? 0)); [done|].
    destruct (next_day_pred st) as [p|]; [|done].
    by destruct (negb (p =? -1)).
Qed.
End Steps.

Arguments train_symbol : simpl never.
Arguments backtest_symbol : simpl never.
Arguments signal_symbol : simpl never.
Arguments update_sheets : simpl never.

(** ** Invariants of the loops and of a run *)

Section Loops.
Context {PS : Type}.
Variable C : Components PS.
Variable settings : Settings.
Implicit Types (st : RunState PS) (item : string * loc).
Implicit Types (hd : list (string * DataFrame)).

Lemma for_each_ind (I : RunState PS -> Prop) body (items : Items) st :
  I st ->
  (forall item st', item ∈ items -> I st' -> I (body item st')) ->
  I (for_each body items st).
Proof.
  revert st. induction items as [|item rest IH]; intros st H0 Hstep; [done|].
  cbn. apply IH.
  - apply Hstep; [left | done].
  - intros item' st' Hin. apply Hstep. by right.
Qed.

Lemma signal_loop_ind (I : RunState PS -> Prop) (items : Items) st :
  I st ->
  (forall item st', item ∈ items -> I st' ->
                    I (state_of (signal_symbol C settings item st'))) ->
  I (state_of (signal_loop C settings items st)).
Proof.
  revert st. induction items as [|item rest IH]; intros st H0 Hstep; [done|].
  cbn. pose proof (Hstep item st ltac:(left) H0) as H1.
  destruct (signal_symbol C settings item st) as [st1|e st1]; [|done].
  apply IH; [done|].
  intros item' st' Hin. apply Hstep. by right.
Qed.

(** A property of the state that every step of a run keeps holds when
    the run ends, however it ends. *)
Lemma run_ind (I : RunState PS -> Prop) hd :
  I (initial_state C hd) ->
  (forall item st, item ∈ items_of hd -> I st ->
                   I (train_symbol C settings item st)) ->
  (forall item st, item ∈ items_of hd -> I st ->
                   I (backtest_symbol C item st)) ->
  (forall st, I st -> I (update_sheets st)) ->
  (forall item st, item ∈ items_of hd -> I st ->
                   I (state_of (signal_symbol C settings item st))) ->
  I (run_algo_prototype C settings hd).2.
Proof.
  intros H0 H1 H2 H3 H4. unfold run_algo_prototype.
  destruct (is_empty hd); [done|].
  assert (I (state_of (signal_loop C settings (items_of hd)
                         (before_signals C settings hd)))) as H.
  { apply signal_loop_ind; [|done].
    unfold before_signals. apply H3.
    apply for_each_ind; [|done].
    by apply for_each_ind. }
  by destruct (signal_loop _ _ _ _).
Qed.

(** The references handed out by [historical_data.items()]. *)
Lemma items_of_lookup hd i s l :
  items_of hd !! i = Some (s, l) ->
  l = i /\ exists df, hd !! i = Some (s, df).
Proof.
  unfold items_of. intros H.
  apply lookup_zip_with_Some in H as (s' & l' & Heq & Hs & Hl).
  injection Heq as -> ->.
  apply lookup_seq in Hl as [-> _].
  rewrite list_lookup_fmap in Hs.
  destruct (hd !! i) as [[s0 df]|] eqn:E; [|done].
  cbn in Hs. injection Hs as ->. eauto.
Qed.

Lemma items_of_elem hd s l :
  (s, l) ∈ items_of hd ->
  exists df, hd !! l = Some (s, df) /\ (s, df) ∈ hd.
Proof.
  intros [i Hi]%list_elem_of_lookup.
  apply items_of_lookup in Hi as [-> [df Hdf]].
  exists df. split; [done|]. by eapply list_elem_of_lookup_2.
Qed.

Lemma items_of_deref hd st s l df :
  hd.*2 `prefix_of` heap st -> hd !! l = Some (s, df) -> deref st l = df.
Proof.
  intros Hpre Hl. eapply deref_prefix; [done|].
  by rewrite list_lookup_fmap, Hl.
Qed.

(** Every step only appends objects to the store. *)
Lemma train_symbol_heap h0 item st :
  h0 `prefix_of` heap st ->
  h0 `prefix_of` heap (train_symbol C settings item st).
Proof.
  intros H. destruct item as [s l]. rewrite train_symbol_eq.
  repeat case_match; cbn; by try apply prefix_app_r.
Qed.

Lemma backtest_symbol_heap h0 item st :
  h0 `prefix_of` heap st -> h0 `prefix_of` heap (backtest_symbol C item st).
Proof.
  intros H. destruct item as [s l]. rewrite backtest_symbol_eq.
  repeat case_match; cbn; by try apply prefix_app_r.
Qed.

Lemma update_sheets_heap st : heap (update_sheets st) = heap st.
Proof. unfold update_sheets. by repeat case_match. Qed.

Lemma signal_symbol_heap h0 item st :
  h0 `prefix_of` heap st ->
  h0 `prefix_of` heap (state_of (signal_symbol C settings item st)).
Proof.
  intros H. destruct item as [s l]. rewrite signal_symbol_eq.
  unfold at_alert_condition.
  repeat case_match; cbn; by try apply prefix_app_r.
Qed.

Lemma run_heap hd :
  hd.*2 `prefix_of` heap (run_algo_prototype C settings hd).2.
Proof.
  apply (run_ind (fun st => hd.*2 `prefix_of` heap st)).
  - done.
  - intros. by apply train_symbol_heap.
  - intros. by apply backtest_symbol_heap.
  - intros. by rewrite update_sheets_heap.
  - intros. by apply signal_symbol_heap.
Qed.
End Loops.

(** ** The fetched data is never written to *)

(** C9: the orchestrator never mutates the fetched historical data.  Every
    loop body leaves all objects that already exist in the store as they
    are: what a collaborator is handed is a new object (a copy), so
    whatever the callee does to its argument, it only shows in objects
    added to the store.  Hence after the whole run, however it ends, the
    DataFrames of [historical_data] are the ones that were fetched. *)
Theorem historical_data_is_never_mutated {PS : Type} (C : Components PS)
    (settings : Settings) :
  (forall item st,
      heap st `prefix_of` heap (train_symbol C settings item st)
      /\ heap st `prefix_of` heap (backtest_symbol C item st)
      /\ heap st `prefix_of` heap (state_of (signal_symbol C settings item st)))
  /\ (forall st : RunState PS, heap (update_sheets st) = heap st)
  /\ (forall hd,
         take (length hd) (heap (run_algo_prototype C settings hd).2) = hd.*2).
Proof.
  split; [|split].
  - intros item st. split; [|split].
    + by apply train_symbol_heap.
    + by apply backtest_symbol_heap.
    + by apply signal_symbol_heap.
  - apply update_sheets_heap.
  - intros hd. destruct (run_heap C settings hd) as [k ->].
    rewrite take_app_length'; [done|]. by rewrite length_fmap.
Qed.

(** ** The alert condition *)

(** C1 fails on the code: with one symbol, a model that was never trained
    and a HOLD signal, the alert condition of line 158 reads
    [next_day_pred] before anything was assigned to it, and the
    [UnboundLocalError] leaves [run_algo_prototype]. *)
Theorem unbound_next_day_pred_escapes {PS : Type} (C : Components PS)
    (settings : Settings) (s : string) (df : DataFrame) :
  trained C (new_predictor C) = false ->
  is_empty df = false ->
  is_empty (tail (required_rows_for_indicators settings) df) = false ->
  is_empty (prepare_data_for_ml C (new_predictor C) df).2 = true ->
  (current_signal_of df
     (generate_signals C
        (tail (required_rows_for_indicators settings) df)).2).1.1 = 0 ->
  (run_algo_prototype C settings [(s, df)]).1
  = Uncaught (UnboundLocalError "next_day_pred").
Proof.
  intros Huntrained Hdf Hwindow Hml Hsig.
  unfold run_algo_prototype, before_signals.
  change (items_of [(s, df)]) with [(s, 0%nat)].
  cbn.
  rewrite train_symbol_eq. cbn. rewrite Hdf, Hml.
  rewrite backtest_symbol_eq. cbn. rewrite Hdf.
  set (st2 := match (run_backtest C s df).2 with Some _ => _ | None => _ end).
  assert (deref (update_sheets st2) 0 = df
          /\ ml_predictor_instance (update_sheets st2) = new_predictor C
          /\ next_day_pred (update_sheets st2) = None) as (Hd & Hp & Hn).
  { unfold update_sheets, st2. by repeat case_match. }
  rewrite signal_symbol_eq. unfold at_alert_condition. cbn.
  rewrite Hd, Hp, Hn, Hdf, Hwindow, Hsig, Huntrained, andb_false_r. done.
Qed.

Lemma unbound_next_day_pred_escapes_witness :
  (run_algo_prototype (Reference.components Examples.usual_settings)
     Examples.usual_settings [("A", Examples.rising 10)]).1
  = Uncaught (UnboundLocalError "next_day_pred").
Proof.
  apply unbound_next_day_pred_escapes; vm_compute; reflexivity.
Defined.

Section AlertDecision.
Context {PS : Type}.
Variable C : Components PS.
Variable settings : Settings.
Implicit Types (st : RunState PS) (s : string) (l : nat).

Lemma new_events_alert s l st (e : Event) :
  new_events st (Ok (emit e (at_alert_condition C settings s l st)))
  = new_events st (Ok (at_alert_condition C settings s l st)) ++ [e].
Proof.
  unfold new_events, at_alert_condition. cbn.
  by rewrite <- !app_assoc, !drop_app_length.
Qed.

Lemma new_events_no_alert s l st e s' :
  new_events st (Ok (at_alert_condition C settings s l st)) = e ->
  ~ alert_sent s' e.
Proof.
  unfold new_events, at_alert_condition. cbn.
  rewrite drop_app_length. intros <- [text Hin].
  apply elem_of_cons in Hin as [Hin|Hin]; [done|].
  case_match.
  - apply list_elem_of_singleton in Hin. done.
  - by apply not_elem_of_nil in Hin.
Qed.
End AlertDecision.

(** C8: for a symbol processed in the current-signal stage (it has data
    and its signal window is not empty), an alert is dispatched if and
    only if the current signal is not HOLD or the prediction value, the
    content of [next_day_pred], is not the sentinel -1; when neither
    holds, no alert is sent for the symbol.  When the prediction branch
    ran, that content is what [predict_next_day_movement] returned for
    this symbol. *)
Theorem alert_iff_signal_or_prediction {PS : Type} (C : Components PS)
    (settings : Settings) (s : string) (l : nat) (st : RunState PS) :
  is_empty (deref st l) = false ->
  is_empty (tail (required_rows_for_indicators settings) (deref st l)) = false ->
  let df := deref st l in
  let current_signal :=
    (current_signal_of df
       (generate_signals C
          (tail (required_rows_for_indicators settings) df)).2).1.1 in
  let ml_prediction_input_data := tail (ml_window_rows settings) df in
  let r := signal_symbol C settings (s, l) st in
  (alert_sent s (new_events st r)
   <-> current_signal <> 0
       \/ exists p, next_day_pred (state_of r) = Some p /\ p <> -1)
  /\ (negb (is_empty ml_prediction_input_data)
      && trained C (ml_predictor_instance st) = true ->
      next_day_pred (state_of r)
      = Some (predict_next_day_movement C (ml_predictor_instance st)
                ml_prediction_input_data (FEATURES settings)).2).
Proof.
  intros Hdf Hw df sig w2 r. subst r. rewrite signal_symbol_eq.
  cbv zeta. rewrite Hdf, Hw. fold df sig.
  assert (alert_sent s (new_events st (Ok (emit
            (alert_of C settings s l st) (at_alert_condition C settings s l st)))))
    as Hsent.
  { rewrite new_events_alert. eexists. apply elem_of_app. right.
    apply list_elem_of_singleton. reflexivity. }
  split.
  - destruct (Z.eqb_spec sig 0) as [Hz|Hz]; cbn [negb].
    + destruct (next_day_pred (at_alert_condition C settings s l st))
        as [p|] eqn:Hp.
      * destruct (Z.eqb_spec p (-1)) as [Hm|Hm]; cbn [negb state_of].
        -- split.
           ++ intros H. by eapply new_events_no_alert in H.
           ++ intros [?|(p' & Hp' & Hne)]; [done|]. congruence.
        -- split; [|done].
           intros _. right. exists p. split; [exact Hp | done].
      * cbn [state_of]. rewrite Hp. split.
        -- intros H. by eapply new_events_no_alert in H.
        -- intros [?|(p' & Hp' & _)]; [done|]. congruence.
    + split; [by left | done].
  - intros Hpred.
    assert (next_day_pred (at_alert_condition C settings s l st)
            = Some (predict_next_day_movement C (ml_predictor_instance st)
                      w2 (FEATURES settings)).2) as Hn.
    { unfold at_alert_condition. cbn. fold df. fold w2. by rewrite Hpred. }
    destruct (negb (sig =? 0)); [exact Hn|].
    rewrite Hn. destruct (negb (_ =? -1)); exact Hn.
Qed.

Lemma alert_iff_signal_or_prediction_witness :
  let st :=
    before_signals Examples.small_components Examples.small_settings
      [("A", Examples.buy_bars)] in
  let r :=
    signal_symbol Examples.small_components Examples.small_settings
      ("A", 0%nat) st in
  alert_sent "A" (new_events st r)
  <-> 1 <> 0 \/ exists p, next_day_pred (state_of r) = Some p /\ p <> -1.
Proof.
  intros st r.
  exact (proj1 (alert_iff_signal_or_prediction Examples.small_components
                  Examples.small_settings "A" 0%nat st
                  ltac:(vm_compute; reflexivity)
                  ltac:(vm_compute; reflexivity))).
Defined.

(** ** The trailing windows *)

Section TrailingWindows.
Context {PS : Type}.
Variable C : Components PS.
Variable settings : Settings.
Implicit Types (st : RunState PS) (df : DataFrame).
Implicit Types (hd : list (string * DataFrame)).

Lemma tail_positive (n : Z) df :
  0 < n -> tail n df = last_rows (Z.to_nat n) df.
Proof.
  intros Hn. unfold tail, last_rows.
  destruct (Z.eqb_spec n 0); [lia|].
  destruct (Z.ltb_spec 0 n); [done | lia].
Qed.

Lemma last_rows_length (n : nat) df :
  length (last_rows n df) = (length df `min` n)%nat.
Proof. unfold last_rows. rewrite length_drop. lia. Qed.

Lemma last_rows_suffix (n : nat) df : last_rows n df `suffix_of` df.
Proof. apply suffix_drop. Qed.

Lemma last_rows_empty (n : nat) df :
  (0 < n)%nat -> is_empty df = false -> is_empty (last_rows n df) = false.
Proof.
  intros Hn Hdf.
  pose proof (last_rows_length n df) as Hlen.
  destruct df as [|r df]; [done|].
  destruct (last_rows n (r :: df)); [cbn [length] in Hlen; lia | done].
Qed.


Lemma prediction_window_tail df :
  tail (ml_window_rows settings) df
  = last_rows (prediction_window_rows settings) df.
Proof. apply tail_positive. unfold ml_window_rows. lia. Qed.

Lemma is_empty_false {A : Type} (xs : list A) :
  is_empty xs = false <-> xs <> [].
Proof. by destruct xs. Qed.

Lemma items_of_lookup_2 hd l s df :
  hd !! l = Some (s, df) -> items_of hd !! l = Some (s, l).
Proof.
  intros H. unfold items_of.
  apply lookup_zip_with_Some. exists s, l. split; [done|].
  split.
  - by rewrite list_lookup_fmap, H.
  - apply lookup_seq. split; [done|]. by eapply lookup_lt_Some.
Qed.



(** A step of section 4 leaves the predictor alone and only adds to the
    trace. *)
Lemma signal_symbol_mono item st :
  ml_predictor_instance (state_of (signal_symbol C settings item st))
  = ml_predictor_instance st
  /\ trace st `prefix_of` trace (state_of (signal_symbol C settings item st)).
Proof.
  destruct item as [s l]. rewrite signal_symbol_eq.
  unfold at_alert_condition.
  repeat case_match; cbn; (split; [done|]); try done;
    rewrite <- ?app_assoc; by apply prefix_app_r.
Qed.


End TrailingWindows.


(** ** Empty series and the end of a run *)

Section EmptyData.
Context {PS : Type}.
Variable C : Components PS.
Variable settings : Settings.
Implicit Types (st : RunState PS) (df : DataFrame) (item : string * loc).
Implicit Types (hd : list (string * DataFrame)).

Lemma train_symbol_mono item st :
  trace st `prefix_of` trace (train_symbol C settings item st).
Proof.
  destruct item as [s l]. rewrite train_symbol_eq.
  repeat case_match; cbn; first [done | by apply prefix_app_r].
Qed.

Lemma backtest_symbol_mono item st :
  trace st `prefix_of` trace (backtest_symbol C item st).
Proof.
  destruct item as [s l]. rewrite backtest_symbol_eq.
  repeat case_match; cbn; first [done | by apply prefix_app_r].
Qed.

Lemma update_sheets_mono st : trace st `prefix_of` trace (update_sheets st).
Proof.
  unfold update_sheets, emit.
  repeat case_match; cbn; rewrite <- ?app_assoc;
    first [done | by apply prefix_app_r].
Qed.

Lemma for_each_mono body (items : Items) st :
  (forall item st', trace st' `prefix_of` trace (body item st')) ->
  trace st `prefix_of` trace (for_each body items st).
Proof.
  intros Hbody. revert st.
  induction items as [|item rest IH]; intros st; [done|].
  cbn. etrans; [apply Hbody | apply IH].
Qed.

Lemma signal_loop_mono (items : Items) st :
  trace st `prefix_of` trace (state_of (signal_loop C settings items st)).
Proof.
  revert st. induction items as [|item rest IH]; intros st; [done|].
  cbn. pose proof (signal_symbol_mono C settings item st) as [_ H].
  destruct (signal_symbol C settings item st) as [st1|e st1]; [|done].
  etrans; [apply H | apply IH].
Qed.

(** A symbol without data is passed over by all three loops. *)
Lemma train_symbol_skip s l st :
  deref st l = [] -> train_symbol C settings (s, l) st = st.
Proof. intros H. rewrite train_symbol_eq. by rewrite H. Qed.

Lemma backtest_symbol_skip s l st :
  deref st l = [] -> backtest_symbol C (s, l) st = st.
Proof. intros H. rewrite backtest_symbol_eq. by rewrite H. Qed.

Lemma signal_symbol_skip s l st :
  deref st l = [] -> signal_symbol C settings (s, l) st = Ok st.
Proof. intros H. rewrite signal_symbol_eq. by rewrite H. Qed.

Lemma for_each_skip body (items : Items) st :
  (forall s l, (s, l) ∈ items -> body (s, l) st = st) ->
  for_each body items st = st.
Proof.
  induction items as [|[s l] rest IH]; intros H; [done|].
  cbn. rewrite H by left. apply IH. intros. apply H. by right.
Qed.

Lemma signal_loop_skip (items : Items) st :
  (forall s l, (s, l) ∈ items -> deref st l = []) ->
  signal_loop C settings items st = Ok st.
Proof.
  induction items as [|[s l] rest IH]; intros H; [done|].
  cbn. rewrite signal_symbol_skip by (apply (H s); left).
  apply IH. intros. eapply H. by right.
Qed.

Lemma initial_deref hd s l :
  no_symbol_has_data hd -> (s, l) ∈ items_of hd ->
  deref (initial_state C hd) l = [].
Proof.
  intros Hall Hin. apply items_of_elem in Hin as (df & Hl & Hdf).
  rewrite (items_of_deref hd _ s l df); [|done|done].
  unfold no_symbol_has_data in Hall. rewrite Forall_forall in Hall.
  by apply (Hall (s, df)).
Qed.

Lemma run_without_data hd :
  no_symbol_has_data hd ->
  run_algo_prototype C settings hd
  = (if is_empty hd then Exited else Finished, initial_state C hd).
Proof.
  intros Hall. unfold run_algo_prototype, before_signals.
  destruct (is_empty hd); [done|].
  assert (for_each (train_symbol C settings) (items_of hd)
            (initial_state C hd) = initial_state C hd) as ->.
  { apply for_each_skip. intros.
    apply train_symbol_skip. by eapply initial_deref. }
  assert (for_each (backtest_symbol C) (items_of hd)
            (initial_state C hd) = initial_state C hd) as ->.
  { apply for_each_skip. intros.
    apply backtest_symbol_skip. by eapply initial_deref. }
  assert (update_sheets (initial_state C hd) = initial_state C hd) as ->.
  { unfold update_sheets. cbn. by case_decide. }
  rewrite signal_loop_skip; [done|].
  intros. by eapply initial_deref.
Qed.

(** A loop whose body records a call for every symbol with data. *)
Lemma for_each_calls body (call : string -> DataFrame -> Event)
    (h0 : list DataFrame) (items : Items) st :
  (forall item st', h0 `prefix_of` heap st' ->
                    h0 `prefix_of` heap (body item st')) ->
  (forall item st', trace st' `prefix_of` trace (body item st')) ->
  (forall s l st', deref st' l <> [] ->
                   call s (deref st' l) ∈ trace (body (s, l) st')) ->
  h0 `prefix_of` heap st ->
  forall s l df,
    (s, l) ∈ items -> h0 !! l = Some df -> df <> [] ->
    call s df ∈ trace (for_each body items st).
Proof.
  intros Hheap Hmono Hcall. revert st.
  induction items as [|[s0 l0] rest IH]; intros st Hpre s l df Hin Hl Hne.
  - by apply elem_of_nil in Hin.
  - cbn. apply (elem_of_cons rest) in Hin as [Heq|Hin].
    + injection Heq as -> ->.
      destruct (for_each_mono body rest (body (s0, l0) st) Hmono) as [k ->].
      apply elem_of_app. left.
      rewrite <- (deref_prefix h0 st l0 df Hpre Hl).
      apply Hcall. by rewrite (deref_prefix h0 st l0 df Hpre Hl).
    + apply (IH _ (Hheap _ _ Hpre) s l df); done.
Qed.

Lemma train_symbol_calls s l st :
  deref st l <> [] ->
  EvPrepare s (deref st l) ∈ trace (train_symbol C settings (s, l) st).
Proof.
  intros Hne%is_empty_false. rewrite train_symbol_eq. cbv zeta.
  rewrite Hne. case_match; cbn; rewrite elem_of_app; right; by left.
Qed.

Lemma backtest_symbol_calls s l st :
  deref st l <> [] ->
  EvBacktest s (deref st l) ∈ trace (backtest_symbol C (s, l) st).
Proof.
  intros Hne%is_empty_false. rewrite backtest_symbol_eq. cbv zeta.
  rewrite Hne. case_match; cbn; rewrite elem_of_app; right; by left.
Qed.

(** In a run on a non-empty mapping, every symbol with data is handed
    to feature preparation and to the backtest. *)
Lemma run_calls hd s df :
  (s, df) ∈ hd -> df <> [] ->
  EvPrepare s df ∈ trace (run_algo_prototype C settings hd).2
  /\ EvBacktest s df ∈ trace (run_algo_prototype C settings hd).2.
Proof.
  intros Hin Hne. unfold run_algo_prototype.
  destruct (is_empty hd) eqn:Hhd.
  { destruct hd; [by apply elem_of_nil in Hin | done]. }
  apply list_elem_of_lookup in Hin as [l Hl].
  assert ((s, l) ∈ items_of hd) as Hitem.
  { eapply list_elem_of_lookup_2. by eapply items_of_lookup_2. }
  assert (hd.*2 !! l = Some df) as Hl' by (by rewrite list_lookup_fmap, Hl).
  set (st1 := for_each (train_symbol C settings) (items_of hd)
                (initial_state C hd)).
  set (st2 := for_each (backtest_symbol C) (items_of hd) st1).
  assert (hd.*2 `prefix_of` heap st1) as Hpre1.
  { apply for_each_ind; [done|intros; by apply train_symbol_heap]. }
  assert (EvPrepare s df ∈ trace st1) as H1.
  { apply (for_each_calls _ EvPrepare (hd.*2)) with (l := l); try done.
    - intros. by apply train_symbol_heap.
    - apply train_symbol_mono.
    - apply train_symbol_calls. }
  assert (EvBacktest s df ∈ trace st2) as H2.
  { apply (for_each_calls _ EvBacktest (hd.*2)) with (l := l); try done.
    - intros. by apply backtest_symbol_heap.
    - apply backtest_symbol_mono.
    - apply backtest_symbol_calls. }
  assert (trace st1 `prefix_of` trace st2) as [k12 H12].
  { apply for_each_mono, backtest_symbol_mono. }
  assert (trace st2 `prefix_of`
            trace (state_of (signal_loop C settings (items_of hd)
                               (before_signals C settings hd))))
    as [k Hk].
  { etrans; [apply update_sheets_mono | apply signal_loop_mono]. }
  assert (forall e, e ∈ trace st2 ->
            e ∈ trace (match signal_loop C settings (items_of hd)
                               (before_signals C settings hd) with
                       | Ok st => (Finished, st)
                       | Raise e st => (Uncaught e, st)
                       end).2) as Hfinal.
  { intros e He. destruct (signal_loop _ _ _ _); cbn in *;
      rewrite Hk; apply elem_of_app; by left. }
  split; apply Hfinal; [|done].
  rewrite H12. apply elem_of_app. by left.
Qed.

(** A dict holds one DataFrame per symbol. *)
Lemma unique_series hd s df1 df2 :
  NoDup hd.*1 -> (s, df1) ∈ hd -> (s, df2) ∈ hd -> df1 = df2.
Proof.
  induction hd as [|[s0 df0] hd IH]; intros Hnd H1 H2.
  - by apply elem_of_nil in H1.
  - cbn in Hnd. apply NoDup_cons in Hnd as [Hnotin Hnd].
    assert (forall df, (s0, df) ∈ hd -> False) as Hfresh.
    { intros df Hin. apply Hnotin.
      apply list_elem_of_fmap. by exists (s0, df). }
    apply (elem_of_cons hd) in H1 as [H1|H1];
      apply (elem_of_cons hd) in H2 as [H2|H2].
    + congruence.
    + injection H1 as -> ->. by apply Hfresh in H2.
    + injection H2 as -> ->. by apply Hfresh in H1.
    + by apply IH.
Qed.

Lemma run_called_with_data hd :
  Forall (called_with_data hd) (trace (run_algo_prototype C settings hd).2).
Proof.
  apply (run_ind C settings
           (fun st => hd.*2 `prefix_of` heap st
                      /\ Forall (called_with_data hd) (trace st))).
  - done.
  - intros [s l] st Hin [Hh Ht]. split; [by apply train_symbol_heap|].
    apply items_of_elem in Hin as (df & Hl & Hdf).
    rewrite train_symbol_eq. cbv zeta.
    rewrite (items_of_deref hd st s l df Hh Hl).
    destruct (is_empty df) eqn:Hne; [done|]. apply is_empty_false in Hne.
    assert (called_with_data hd (EvPrepare s df)) as H1.
    { intros s' [= <-]. eauto. }
    assert (forall m, called_with_data hd (EvTrain s m)) as H2.
    { intros m s' [= <-]. eauto. }
    case_match; cbn; apply Forall_app; split; try done;
      by repeat constructor.
  - intros [s l] st Hin [Hh Ht]. split; [by apply backtest_symbol_heap|].
    apply items_of_elem in Hin as (df & Hl & Hdf).
    rewrite backtest_symbol_eq. cbv zeta.
    rewrite (items_of_deref hd st s l df Hh Hl).
    destruct (is_empty df) eqn:Hne; [done|]. apply is_empty_false in Hne.
    assert (called_with_data hd (EvBacktest s df)) as H1.
    { intros s' [= <-]. eauto. }
    case_match; cbn; apply Forall_app; split; try done;
      by repeat constructor.
  - intros st [Hh Ht]. split; [by rewrite update_sheets_heap|].
    unfold update_sheets, emit.
    repeat case_match; cbn; rewrite ?Forall_app; repeat split;
      try done; by repeat constructor.
  - intros [s l] st Hin [Hh Ht]. split; [by apply signal_symbol_heap|].
    apply items_of_elem in Hin as (df & Hl & Hdf).
    rewrite signal_symbol_eq. unfold at_alert_condition, alert_of.
    rewrite (items_of_deref hd st s l df Hh Hl).
    destruct (is_empty df) eqn:Hne; [done|]. apply is_empty_false in Hne.
    assert (forall e, event_symbol e = Some s -> called_with_data hd e)
      as H1.
    { intros e He s' He'. rewrite He in He'. injection He' as <-. eauto. }
    repeat case_match; cbn; rewrite ?Forall_app; repeat split;
      try done; repeat constructor; by apply H1.
Qed.
End EmptyData.

(** C6: the run aborts (it returns without training, backtesting or sink
    delivery) if and only if no symbol has data; a mapping that gives
    every symbol an empty series counts as no symbol having data.  When
    some symbols have data, a symbol whose series is empty gets no call
    at all, while every symbol with data is still handed to feature
    preparation and to the backtest. *)
Theorem aborts_iff_no_symbol_has_data {PS : Type} (C : Components PS)
    (settings : Settings) (hd : list (string * DataFrame)) :
  NoDup hd.*1 ->
  let r := run_algo_prototype C settings hd in
  (aborts r <-> no_symbol_has_data hd)
  /\ (no_symbol_has_data hd -> trace r.2 = [])
  /\ (forall s,
         (s, []) ∈ hd -> Forall (fun e => event_symbol e <> Some s) (trace r.2))
  /\ (forall s df,
         (s, df) ∈ hd -> df <> [] ->
         EvPrepare s df ∈ trace r.2 /\ EvBacktest s df ∈ trace r.2).
Proof.
  intros Hnodup r. subst r. split; [|split; [|split]].
  - split.
    + intros [_ Hquiet]. apply Forall_forall. intros [s df] Hin. cbn.
      destruct df as [|row df]; [done|]. exfalso.
      destruct (run_calls C settings hd s (row :: df) Hin ltac:(done))
        as [Hprep _].
      rewrite Forall_forall in Hquiet. by apply Hquiet in Hprep.
    + intros Hall. rewrite (run_without_data C settings hd Hall).
      split; [|by constructor].
      unfold returns. cbn. destruct (is_empty hd); eauto.
  - intros Hall. by rewrite (run_without_data C settings hd Hall).
  - intros s Hin.
    eapply Forall_impl; [apply run_called_with_data|].
    intros e He Hs. destruct (He s Hs) as (df & Hdf & Hne).
    apply Hne. by apply (unique_series hd s df [] Hnodup).
  - intros. by apply run_calls.
Qed.

Lemma aborts_iff_no_symbol_has_data_witness :
  let hd := [("A", []); ("B", [])] in
  let r :=
    run_algo_prototype Examples.usual_components Examples.usual_settings hd in
  (aborts r <-> no_symbol_has_data hd) /\ r.1 = Finished /\ trace r.2 = [].
Proof.
  intros hd r.
  destruct (aborts_iff_no_symbol_has_data Examples.usual_components
              Examples.usual_settings hd ltac:(apply (bool_decide_unpack _);
                                                vm_compute; reflexivity))
    as (Hiff & _ & _ & _).
  split; [exact Hiff|]. split; reflexivity.
Defined.

(** ** Order of the calls *)

Section Passes.
Context {PS : Type}.
Variable C : Components PS.
Variable settings : Settings.
Implicit Types (st : RunState PS) (s : string) (l : nat).
Implicit Types (hd : list (string * DataFrame)).

Lemma train_symbol_chunk s l st :
  exists chunk,
    trace (train_symbol C settings (s, l) st) = trace st ++ chunk
    /\ chunk_of 1 s chunk.
Proof.
  rewrite train_symbol_eq.
  repeat case_match; cbn; eexists; (split; [|shelve]);
    first [reflexivity | symmetry; apply app_nil_r].
  Unshelve. all: by repeat constructor.
Qed.

Lemma backtest_symbol_chunk s l st :
  exists chunk,
    trace (backtest_symbol C (s, l) st) = trace st ++ chunk
    /\ chunk_of 2 s chunk.
Proof.
  rewrite backtest_symbol_eq.
  repeat case_match; cbn; eexists; (split; [|shelve]);
    first [reflexivity | symmetry; apply app_nil_r].
  Unshelve. all: by repeat constructor.
Qed.

Lemma signal_symbol_chunk s l st :
  exists chunk,
    trace (state_of (signal_symbol C settings (s, l) st)) = trace st ++ chunk
    /\ chunk_of 4 s chunk.
Proof.
  rewrite signal_symbol_eq. unfold at_alert_condition, alert_of.
  repeat case_match; cbn; rewrite <- ?app_assoc;
    eexists; (split; [|shelve]);
    first [reflexivity | symmetry; apply app_nil_r].
  Unshelve. all: by repeat constructor.
Qed.

Lemma update_sheets_chunk st :
  exists chunk,
    trace (update_sheets st) = trace st ++ chunk
    /\ Forall (fun e => event_stage e = 3%nat) chunk.
Proof.
  unfold update_sheets, emit.
  repeat case_match; cbn; rewrite <- ?app_assoc;
    eexists; (split; [|shelve]);
    first [reflexivity | symmetry; apply app_nil_r].
  Unshelve. all: by repeat constructor.
Qed.

Lemma for_each_pass body (k : nat) (items : Items) st :
  (forall s l st',
      exists chunk,
        trace (body (s, l) st') = trace st' ++ chunk /\ chunk_of k s chunk) ->
  exists tr,
    trace (for_each body items st) = trace st ++ tr /\ pass k (items.*1) tr.
Proof.
  intros Hbody. revert st.
  induction items as [|[s l] rest IH]; intros st.
  - exists []. split; [by rewrite app_nil_r|]. exists []. by split.
  - cbn. destruct (Hbody s l st) as (chunk & Hchunk & Hgood).
    destruct (IH (body (s, l) st)) as (tr & Htr & chunks & -> & Hall).
    exists (chunk ++ concat chunks). split.
    + by rewrite Htr, Hchunk, app_assoc.
    + exists (chunk :: chunks). split; [done|]. by constructor.
Qed.

Lemma signal_loop_pass (items : Items) st :
  exists tr n,
    trace (state_of (signal_loop C settings items st)) = trace st ++ tr
    /\ pass 4 (take n (items.*1)) tr
    /\ (forall st', signal_loop C settings items st = Ok st' ->
                    n = length items).
Proof.
  revert st. induction items as [|[s l] rest IH]; intros st.
  - exists [], 0%nat. split; [by rewrite app_nil_r|].
    split; [|done]. exists []. by split.
  - cbn. destruct (signal_symbol_chunk s l st) as (chunk & Hchunk & Hgood).
    destruct (signal_symbol C settings (s, l) st) as [st1|e st1].
    + destruct (IH st1) as (tr & n & Htr & (chunks & -> & Hall) & Hn).
      exists (chunk ++ concat chunks), (S n). split; [|split].
      * cbn in Hchunk. by rewrite Htr, Hchunk, app_assoc.
      * exists (chunk :: chunks). split; [done|]. by constructor.
      * intros st' Hok. f_equal. by eapply Hn.
    + exists chunk, 1%nat. split; [done|]. split; [|done].
      exists [chunk]. cbn. rewrite app_nil_r. split; [done|].
      rewrite take_0. by repeat constructor.
Qed.

Lemma items_of_symbols hd : (items_of hd).*1 = hd.*1.
Proof.
  unfold items_of. apply fst_zip.
  rewrite length_fmap, length_seq. done.
Qed.
End Passes.

(** C3 does not hold as stated: with two symbols the features of the
    second are prepared before the first is backtested. *)
Lemma stages_of_two_symbols_interleave :
  ~ sequential_per_symbol
      (trace (run_algo_prototype Examples.small_components
                Examples.small_settings Examples.two_short_series).2).
Proof.
  intros Hseq. apply Hseq.
  exists 0%nat, 1%nat, 2%nat.
  exists (EvPrepare "A" Examples.buy_bars), (EvPrepare "B" Examples.buy_bars),
    (EvBacktest "A" Examples.buy_bars), "A", "B".
  split; [lia|]. split; [lia|].
  split; [vm_compute; reflexivity|].
  split; [vm_compute; reflexivity|].
  split; [vm_compute; reflexivity|].
  split; [reflexivity|]. split; [reflexivity|]. split; [reflexivity|].
  discriminate.
Qed.

(** C3 as amended: execution is sequential per section, not per symbol.
    The calls of a run are those of a pass over all symbols for feature
    preparation and training, then those of a pass over all symbols for
    the backtest, then the sink deliveries, then those of a pass for the
    current-signal recompute, which covers all symbols when the run
    reaches its last line.  Within a pass the calls for one symbol are
    complete before the calls for the next symbol begin. *)
Theorem execution_is_sequential_per_stage {PS : Type} (C : Components PS)
    (settings : Settings) (hd : list (string * DataFrame)) :
  let r := run_algo_prototype C settings hd in
  exists t1 t2 t3 t4 n,
    trace r.2 = t1 ++ t2 ++ t3 ++ t4
    /\ pass 1 (hd.*1) t1
    /\ pass 2 (hd.*1) t2
    /\ Forall (fun e => event_stage e = 3%nat) t3
    /\ pass 4 (take n (hd.*1)) t4
    /\ (r.1 = Finished -> n = length hd).
Proof.
  intros r. subst r. unfold run_algo_prototype.
  destruct (is_empty hd) eqn:Hhd.
  { destruct hd; [|done]. exists [], [], [], [], 0%nat.
    repeat split; try done; exists []; by split. }
  unfold before_signals.
  destruct (for_each_pass (train_symbol C settings) 1 (items_of hd)
              (initial_state C hd) (train_symbol_chunk C settings))
    as (t1 & H1 & P1).
  set (st1 := for_each (train_symbol C settings) (items_of hd)
                (initial_state C hd)) in *.
  destruct (for_each_pass (backtest_symbol C) 2 (items_of hd) st1
              (backtest_symbol_chunk C)) as (t2 & H2 & P2).
  set (st2 := for_each (backtest_symbol C) (items_of hd) st1) in *.
  destruct (update_sheets_chunk st2) as (t3 & H3 & P3).
  destruct (signal_loop_pass C settings (items_of hd) (update_sheets st2))
    as (t4 & n & H4 & P4 & Hn).
  rewrite items_of_symbols in P1, P2, P4.
  exists t1, t2, t3, t4, n.
  assert (trace (state_of (signal_loop C settings (items_of hd)
                             (update_sheets st2)))
          = t1 ++ t2 ++ t3 ++ t4) as Htrace.
  { rewrite H4, H3, H2, H1. cbn. by rewrite <- !app_assoc. }
  destruct (signal_loop C settings (items_of hd) (update_sheets st2))
    as [st'|e st'] eqn:Hloop; cbn in *.
  - repeat split; try done. intros _.
    rewrite (Hn st' eq_refl). unfold items_of.
    rewrite length_zip_with, length_fmap, length_seq. lia.
  - repeat split; done.
Qed.

(** ** One predictor for all symbols *)

Section SharedPredictor.
Context {PS : Type}.
Variable C : Components PS.
Variable settings : Settings.
Implicit Types (st : RunState PS) (s : string) (l : nat).
Implicit Types (hd : list (string * DataFrame)).

Lemma train_symbol_predictor s l st :
  ml_predictor_instance (train_symbol C settings (s, l) st)
  = train_on C settings (ml_predictor_instance st) (s, deref st l).
Proof.
  rewrite train_symbol_eq. unfold train_on. cbn.
  by repeat case_match.
Qed.

Lemma train_loop_predictor (h0 : list DataFrame)
    (entries : list (string * DataFrame)) (i : nat) st :
  h0 `prefix_of` heap st ->
  (forall j e, entries !! j = Some e -> h0 !! (i + j)%nat = Some e.2) ->
  ml_predictor_instance
    (for_each (train_symbol C settings)
       (zip (entries.*1) (seq i (length entries))) st)
  = foldl (train_on C settings) (ml_predictor_instance st) entries.
Proof.
  revert i st. induction entries as [|[s df] rest IH]; intros i st Hpre Hh0.
  - done.
  - cbn. rewrite IH.
    + rewrite train_symbol_predictor.
      rewrite (deref_prefix h0 st i df Hpre); [done|].
      specialize (Hh0 0%nat (s, df) eq_refl).
      by rewrite Nat.add_0_r in Hh0.
    + by apply train_symbol_heap.
    + intros j e He. specialize (Hh0 (S j) e He).
      by rewrite Nat.add_succ_r in Hh0.
Qed.

Lemma training_pass_predictor hd :
  ml_predictor_instance
    (for_each (train_symbol C settings) (items_of hd) (initial_state C hd))
  = predictor_after_training C settings hd.
Proof.
  unfold items_of, predictor_after_training.
  rewrite (train_loop_predictor (hd.*2)); [done|done|].
  intros j e He. rewrite Nat.add_0_l. by rewrite list_lookup_fmap, He.
Qed.

Lemma backtest_symbol_predictor item st :
  ml_predictor_instance (backtest_symbol C item st)
  = ml_predictor_instance st.
Proof.
  destruct item as [s l]. rewrite backtest_symbol_eq.
  by repeat case_match.
Qed.

Lemma update_sheets_predictor st :
  ml_predictor_instance (update_sheets st) = ml_predictor_instance st.
Proof. unfold update_sheets. by repeat case_match. Qed.

Lemma before_signals_predictor hd :
  ml_predictor_instance (before_signals C settings hd)
  = predictor_after_training C settings hd.
Proof.
  unfold before_signals. rewrite update_sheets_predictor.
  apply (for_each_ind (fun st => ml_predictor_instance st = _)).
  - apply training_pass_predictor.
  - intros item st _ <-. apply backtest_symbol_predictor.
Qed.

Lemma pass_stage (k : nat) symbols tr :
  pass k symbols tr -> Forall (fun e => event_stage e = k) tr.
Proof.
  intros (chunks & -> & Hall).
  induction Hall as [|s chunk symbols chunks Hchunk _ IH]; [done|].
  cbn. apply Forall_app. split; [|done].
  eapply Forall_impl; [exact Hchunk|]. by intros e [? _].
Qed.

(** The calls made before section 4. *)
Lemma before_signals_trace hd :
  exists t1 t23,
    trace (before_signals C settings hd) = t1 ++ t23
    /\ Forall (fun e => event_stage e = 1%nat) t1
    /\ Forall (fun e => event_stage e = 2%nat \/ event_stage e = 3%nat) t23.
Proof.
  unfold before_signals.
  destruct (for_each_pass (train_symbol C settings) 1 (items_of hd)
              (initial_state C hd) (train_symbol_chunk C settings))
    as (t1 & H1 & P1%pass_stage).
  set (st1 := for_each (train_symbol C settings) (items_of hd)
                (initial_state C hd)) in *.
  destruct (for_each_pass (backtest_symbol C) 2 (items_of hd) st1
              (backtest_symbol_chunk C)) as (t2 & H2 & P2%pass_stage).
  set (st2 := for_each (backtest_symbol C) (items_of hd) st1) in *.
  destruct (update_sheets_chunk st2) as (t3 & H3 & P3).
  exists t1, (t2 ++ t3). split; [|split].
  - rewrite H3, H2, H1. cbn. by rewrite <- app_assoc.
  - done.
  - apply Forall_app. split; eapply Forall_impl; eauto.
Qed.

Lemma signal_symbol_prediction hd s l st :
  ml_predictor_instance st = predictor_after_training C settings hd ->
  Forall (predicted_by_shared_model C settings hd) (trace st) ->
  Forall (predicted_by_shared_model C settings hd)
    (trace (state_of (signal_symbol C settings (s, l) st))).
Proof.
  intros Hp Ht. rewrite signal_symbol_eq.
  unfold at_alert_condition, alert_of.
  repeat case_match; cbn; rewrite ?Forall_app; repeat split; try done;
    repeat constructor; cbn; by rewrite Hp.
Qed.
End SharedPredictor.

(** C2 does not hold as stated: the one predictor is trained on A's
    series and then again on B's, and the prediction emitted for A (0,
    "Down/No Change") is that of the model left by the training on B,
    while a model trained on A's own ever-rising series predicts 1. *)
Lemma last_trained_model_predicts_for_all :
  ~ classifier_is_per_symbol Examples.usual_components Examples.usual_settings
      Examples.rising_and_falling.
Proof.
  unfold classifier_is_per_symbol. intros Hown.
  assert (trace (run_algo_prototype Examples.usual_components
                   Examples.usual_settings Examples.rising_and_falling).2
            !! 8%nat
          = Some (EvPredict "A"
                    (last_rows 28 (Examples.rising 60)) 0)) as Hev.
  { vm_compute. reflexivity. }
  apply (Forall_lookup_1 _ _ _ _ Hown) in Hev.
  destruct Hev as (df & Hin & Hv).
  unfold Examples.rising_and_falling in Hin.
  apply (elem_of_cons _) in Hin as [Hin|Hin].
  - injection Hin as ->. vm_compute in Hv. discriminate.
  - apply list_elem_of_singleton in Hin. discriminate.
Qed.

(** C2 as amended: there is one classifier, shared by all symbols.  In
    the training pass it is trained in turn on every symbol that yields
    feature rows, each training replacing the model of the one before;
    after that pass it is only queried, never retrained, for the rest of
    the run.  So the prediction emitted for any symbol is produced by the
    model as the training pass left it. *)
Theorem one_predictor_shared_by_all_symbols {PS : Type} (C : Components PS)
    (settings : Settings) (hd : list (string * DataFrame)) :
  let r := run_algo_prototype C settings hd in
  ml_predictor_instance r.2 = predictor_after_training C settings hd
  /\ Forall (predicted_by_shared_model C settings hd) (trace r.2)
  /\ exists training rest,
      trace r.2 = training ++ rest
      /\ Forall (fun e => is_prediction e = false) training
      /\ Forall (fun e => is_training e = false) rest.
Proof.
  intros r. subst r. unfold run_algo_prototype.
  destruct (is_empty hd) eqn:Hhd.
  { destruct hd; [|done]. cbn. split; [done|]. split; [done|].
    exists [], []. by repeat split. }
  destruct (before_signals_trace C settings hd) as (t1 & t23 & Ht & P1 & P23).
  pose proof (before_signals_predictor C settings hd) as Hp.
  assert (Forall (predicted_by_shared_model C settings hd)
            (trace (before_signals C settings hd))) as Hgood.
  { rewrite Ht. apply Forall_app. split.
    - eapply Forall_impl; [exact P1|]. by intros [] ?.
    - eapply Forall_impl; [exact P23|]. by intros [] [?|?]. }
  pose proof (signal_loop_ind C settings
                (fun st => ml_predictor_instance st
                           = predictor_after_training C settings hd
                           /\ Forall (predicted_by_shared_model C settings hd)
                                (trace st))
                (items_of hd) (before_signals C settings hd)
                (conj Hp Hgood)) as Hloop.
  destruct (signal_loop_pass C settings (items_of hd)
              (before_signals C settings hd))
    as (t4 & n & H4 & P4%pass_stage & _).
  assert (ml_predictor_instance
            (state_of (signal_loop C settings (items_of hd)
                         (before_signals C settings hd)))
          = predictor_after_training C settings hd
          /\ Forall (predicted_by_shared_model C settings hd)
               (trace (state_of (signal_loop C settings (items_of hd)
                                   (before_signals C settings hd)))))
    as [Hpf Hgf].
  { apply Hloop. intros [s l] st _ [Hps Hts]. split.
    - by rewrite (proj1 (signal_symbol_mono C settings (s, l) st)).
    - by apply signal_symbol_prediction. }
  assert (exists training rest,
             trace (state_of (signal_loop C settings (items_of hd)
                                (before_signals C settings hd)))
             = training ++ rest
             /\ Forall (fun e => is_prediction e = false) training
             /\ Forall (fun e => is_training e = false) rest) as Hsplit.
  { exists t1, (t23 ++ t4). split; [|split].
    - by rewrite H4, Ht, <- app_assoc.
    - eapply Forall_impl; [exact P1|]. by intros [] ?.
    - apply Forall_app. split.
      + eapply Forall_impl; [exact P23|]. by intros [] [?|?].
      + eapply Forall_impl; [exact P4|]. by intros [] ?. }
  by destruct (signal_loop C settings (items_of hd)
                 (before_signals C settings hd)).
Qed.

(** ** The HOLD fallback *)

Section Fallback.
Context {PS : Type}.
Variable C : Components PS.
Variable settings : Settings.
Implicit Types (df : DataFrame).

Lemma current_signal_unreliable df processed :
  latest_row_unreliable processed = true ->
  current_signal_of df processed
  = (0, match last df with Some r => Close r | None => 0%Q end,
        match last df with Some r => Date r | None => "N/A" end).
Proof.
  unfold latest_row_unreliable, current_signal_of.
  destruct (last processed) as [r|]; [|done]. by intros ->.
Qed.
End Fallback.

(** C4 does not hold as stated: B has fewer bars than the long average
    needs, so its latest row is unreliable and its signal falls back to
    HOLD, yet the prediction computed for B from its last 28 bars is 1,
    not the sentinel. *)
Lemma prediction_is_made_despite_fallback :
  ~ hold_and_sentinel_on_unreliable_row Examples.usual_components
      Examples.usual_settings Examples.long_and_short.
Proof.
  intros Hclaim.
  destruct (Hclaim "B" (Examples.rising 30)) as (_ & Hpred & _).
  - unfold Examples.long_and_short. apply elem_of_cons. right.
    apply list_elem_of_singleton. reflexivity.
  - vm_compute. discriminate.
  - vm_compute. reflexivity.
  - specialize (Hpred (last_rows 28 (Examples.rising 30)) 1).
    assert (1 = -1) as Habs; [|discriminate Habs].
    apply Hpred. eapply list_elem_of_lookup_2 with (i := 10%nat).
    vm_compute. reflexivity.
Qed.

(** C4 as amended: for a symbol whose recomputed latest row is empty or
    has an undefined field or an undefined signal, the current-signal
    recompute yields HOLD (signal 0), reported with the close and date of
    the last fetched bar; a series shorter than the signal window gets
    this HOLD whenever the strategy leaves the last row of such a window
    undefined.  The prediction is not tied to the fallback: when the
    model is trained it is what the model returns for the prediction
    window, the step does not fail, and the alert goes out exactly when
    that value is not -1. *)
Theorem unreliable_latest_row_yields_hold {PS : Type} (C : Components PS)
    (settings : Settings) (s : string) (l : nat) (st : RunState PS) :
  let df := deref st l in
  let w := tail (required_rows_for_indicators settings) df in
  let processed := (generate_signals C w).2 in
  let v :=
    (predict_next_day_movement C (ml_predictor_instance st)
       (tail (ml_window_rows settings) df) (FEATURES settings)).2 in
  is_empty df = false ->
  is_empty w = false ->
  latest_row_unreliable processed = true ->
  current_signal_of df processed
  = (0, match last df with Some r => Close r | None => 0%Q end,
        match last df with Some r => Date r | None => "N/A" end)
  /\ (trained C (ml_predictor_instance st) = true ->
      exists st',
        signal_symbol C settings (s, l) st = Ok st'
        /\ next_day_pred st' = Some v
        /\ EvPredict s (tail (ml_window_rows settings) df) v
             ∈ new_events st (Ok st')
        /\ (alert_sent s (new_events st (Ok st')) <-> v <> -1)).
Proof.
  intros df w processed v Hdf Hw Hbad.
  pose proof (current_signal_unreliable df processed Hbad) as Hcur.
  split; [exact Hcur|].
  intros Htrained.
  assert (is_empty (tail (ml_window_rows settings) df) = false) as Hw2.
  { rewrite prediction_window_tail. apply last_rows_empty; [|done].
    unfold prediction_window_rows. lia. }
  assert (at_alert_condition C settings s l st
          = mkRunState
              (heap st ++ [(generate_signals C w).1] ++
               [(predict_next_day_movement C (ml_predictor_instance st)
                   (tail (ml_window_rows settings) df) (FEATURES settings)).1])
              (ml_predictor_instance st) (all_trade_logs st)
              (symbol_pnl_results st) (ml_accuracies st) (Some v)
              (trace st ++ [EvGenerateSignals s w] ++
               [EvPredict s (tail (ml_window_rows settings) df) v])) as Hat.
  { unfold at_alert_condition. fold df. fold w. by rewrite Hw2, Htrained. }
  pose proof (signal_symbol_eq C settings s l st) as Heq. cbv zeta in Heq.
  fold df in Heq. fold w in Heq. fold processed in Heq.
  rewrite Hdf, Hw, Hcur, Hat in Heq. cbn in Heq.
  destruct (Z.eqb_spec v (-1)) as [Hv|Hv]; cbn in Heq;
    eexists; (split; [exact Heq|]); cbn.
  - split; [done|]. unfold new_events. cbn. rewrite drop_app_length.
    split; [apply elem_of_cons; right; by left|].
    split; [|done]. intros [text Hin].
    apply (elem_of_cons _) in Hin as [Hin|Hin]; [done|].
    apply list_elem_of_singleton in Hin. done.
  - split; [done|]. unfold new_events. cbn.
    rewrite <- app_assoc, drop_app_length.
    split; [apply elem_of_cons; right; by left|].
    split; [done|]. intros _. eexists.
    do 2 (apply elem_of_cons; right). apply list_elem_of_singleton.
    reflexivity.
Qed.

Lemma unreliable_latest_row_yields_hold_witness :
  let st := Examples.state_at_B in
  let df := deref st 1%nat in
  current_signal_of df
    (generate_signals Examples.usual_components
       (tail (required_rows_for_indicators Examples.usual_settings) df)).2
  = (0, match last df with Some r => Close r | None => 0%Q end,
        match last df with Some r => Date r | None => "N/A" end).
Proof.
  intros st df.
  exact (proj1 (unreliable_latest_row_yields_hold Examples.usual_components
                  Examples.usual_settings "B" 1%nat st
                  ltac:(vm_compute; reflexivity)
                  ltac:(vm_compute; reflexivity)
                  ltac:(vm_compute; reflexivity))).
Defined.

(** ** Profit and loss *)

Section Accounting.
Import Reference.
Implicit Types (acc : Account) (rows : DataFrame) (r : Row).

Lemma Qsum_snoc (xs : list Q) (x : Q) : (Qsum (xs ++ [x]) == Qsum xs + x)%Q.
Proof.
  unfold Qsum. induction xs as [|y xs IH]; cbn [app foldr].
  - ring.
  - rewrite IH. ring.
Qed.

Lemma realized_snoc (ts : list Trade) (t : Trade) :
  (realized (ts ++ [t]) == realized ts + realized_pnl t)%Q.
Proof. unfold realized. rewrite fmap_app. apply Qsum_snoc. Qed.

Lemma backtest_step_book symbol acc r :
  ~ (Close r == 0)%Q ->
  (book_value (backtest_step symbol acc r) - realized (trades (backtest_step symbol acc r))
   == book_value acc - realized (trades acc))%Q.
Proof.
  intros Hclose. destruct acc as [cash [p|] ts];
    unfold backtest_step, book_value; cbn [position capital trades];
    destruct (Signal r) as [[|[q|q|]|[q|q|]]|];
    cbn [position capital trades]; try reflexivity.
  - rewrite realized_snoc. cbn [realized_pnl]. ring.
  - assert (cash / Close r * Close r == cash)%Q as Hq.
    { rewrite Qmult_comm. by apply Qmult_div_r. }
    rewrite Hq. ring.
Qed.

Lemma final_account_book symbol rows acc :
  (forall r, r ∈ rows -> ~ (Close r == 0)%Q) ->
  (book_value (foldl (backtest_step symbol) acc rows)
   - realized (trades (foldl (backtest_step symbol) acc rows))
   == book_value acc - realized (trades acc))%Q.
Proof.
  revert acc. induction rows as [|r rows IH]; intros acc Hrows; cbn.
  - reflexivity.
  - rewrite IH by (intros; apply Hrows; by right).
    apply backtest_step_book. apply Hrows. by left.
Qed.

Lemma Qbalance (a b c : Q) : (a - b == c - 0)%Q -> (a == c + b)%Q.
Proof.
  intros H.
  setoid_replace a with ((a - b) + b)%Q using relation Qeq by ring.
  rewrite H. ring.
Qed.

Lemma simulate_balanced symbol rows initial res :
  (forall r, r ∈ rows -> ~ (Close r == 0)%Q) ->
  simulate symbol rows initial = Some res ->
  (final_capital res == initial_capital res + total_pnl res)%Q
  /\ trade_log res = trades (final_account symbol rows initial)
  /\ (position (final_account symbol rows initial) = None ->
      (total_pnl res == realized (trade_log res))%Q).
Proof.
  intros Hrows. unfold simulate.
  destruct (last rows) as [final_row|]; [|done].
  destruct (forallb _ rows); [done|].
  intros [= <-]. cbn [final_capital initial_capital total_pnl trade_log].
  pose proof (final_account_book symbol rows (mkAccount initial None [])
                Hrows) as Hbook.
  fold (final_account symbol rows initial) in Hbook.
  change (book_value (mkAccount initial None [])) with initial in Hbook.
  change (realized (trades (mkAccount initial None []))) with 0%Q in Hbook.
  apply Qbalance in Hbook.
  unfold book_value, market_value, unrealized in *.
  split; [|split; [done|]].
  - destruct (position (final_account symbol rows initial)) as [p|].
    + setoid_replace
        (capital (final_account symbol rows initial)
         + position_quantity p * Close final_row)%Q
        with ((capital (final_account symbol rows initial)
               + position_quantity p * position_entry_price p)
              + position_quantity p
                * (Close final_row - position_entry_price p))%Q
        using relation Qeq by ring.
      rewrite Hbook. ring.
    + rewrite Hbook. ring.
  - intros ->. ring.
Qed.
End Accounting.

Section ReferenceBacktest.
Import Reference.
Variable settings : Settings.

Lemma assign_signals_close closes i prev holding rows row :
  row ∈ assign_signals settings closes i prev holding rows ->
  exists r, r ∈ rows /\ Close row = Close r.
Proof.
  revert i prev holding.
  induction rows as [|r rows IH]; intros i prev holding Hin; cbn in Hin.
  - by apply elem_of_nil in Hin.
  - apply (elem_of_cons _) in Hin as [->|Hin].
    + exists r. split; [by left | done].
    + destruct (IH _ _ _ Hin) as (r' & Hr' & Hc).
      exists r'. split; [by right | done].
Qed.

Lemma nonzero_close_spec (r : Row) :
  nonzero_close r = true -> ~ (Close r == 0)%Q.
Proof.
  unfold nonzero_close. intros H Heq.
  apply Qeq_bool_iff in Heq. by rewrite Heq in H.
Qed.

End ReferenceBacktest.

(** ** Alerts and earlier symbols *)

(** C10 fails on the code: two runs that differ only in the bars of the
    first symbol A, with the model untrained in both, so that the
    prediction branch is skipped for the later symbol B.  With a BUY for
    A the run goes on and sends the alert for B; with a HOLD for A the
    read of the unbound [next_day_pred] ends the run at A and no alert
    for B is ever sent. *)
Theorem alert_for_later_symbol_depends_on_earlier :
  let run1 :=
    run_algo_prototype Examples.small_components Examples.small_settings
      Examples.two_short_series in
  let run2 :=
    run_algo_prototype Examples.small_components Examples.small_settings
      Examples.hold_then_buy in
  trained Examples.small_components (ml_predictor_instance run1.2) = false
  /\ trained Examples.small_components (ml_predictor_instance run2.2) = false
  /\ alert_sent "B" (trace run1.2)
  /\ ~ alert_sent "B" (trace run2.2)
  /\ run1.1 = Finished
  /\ run2.1 = Uncaught (UnboundLocalError "next_day_pred").
Proof.
  intros run1 run2.
  split; [vm_compute; reflexivity|].
  split; [vm_compute; reflexivity|].
  split; [|split; [|split; vm_compute; reflexivity]].
  - eexists. eapply list_elem_of_lookup_2 with (i := 8%nat).
    vm_compute. reflexivity.
  - intros [text Hin]. apply list_elem_of_lookup in Hin as [i Hi].
    do 6 (destruct i as [|i]; [vm_compute in Hi; discriminate|]).
    vm_compute in Hi. discriminate.
Qed.

(** ** Aggregation of the backtest results *)

Section Aggregation.
Context {PS : Type}.
Variable C : Components PS.
Variable settings : Settings.
Implicit Types (st : RunState PS) (s : string) (l : nat).
Implicit Types (hd : list (string * DataFrame)).

Lemma backtest_symbol_aggregates s l st :
  all_trade_logs (backtest_symbol C (s, l) st)
  = all_trade_logs st ++ symbol_trade_log C (s, deref st l)
  /\ symbol_pnl_results (backtest_symbol C (s, l) st)
     = record_pnl C (symbol_pnl_results st) (s, deref st l).
Proof.
  rewrite backtest_symbol_eq. unfold symbol_trade_log, record_pnl. cbn.
  destruct (is_empty (deref st l)); [by rewrite app_nil_r|].
  destruct (run_backtest C s (deref st l)).2 as [r|]; cbn;
    [|by rewrite app_nil_r].
  destruct (trade_log r); cbn; by rewrite ?app_nil_r.
Qed.

Lemma backtest_loop_aggregates (h0 : list DataFrame)
    (entries : list (string * DataFrame)) (i : nat) st :
  h0 `prefix_of` heap st ->
  (forall j e, entries !! j = Some e -> h0 !! (i + j)%nat = Some e.2) ->
  let st' :=
    for_each (backtest_symbol C)
      (zip (entries.*1) (seq i (length entries))) st in
  all_trade_logs st'
  = all_trade_logs st ++ concat (symbol_trade_log C <$> entries)
  /\ symbol_pnl_results st'
     = foldl (record_pnl C) (symbol_pnl_results st) entries.
Proof.
  revert i st. induction entries as [|[s df] rest IH]; intros i st Hpre Hh0.
  - cbn. by rewrite app_nil_r.
  - cbn.
    destruct (backtest_symbol_aggregates s i st) as [Hlogs Hpnl].
    assert (deref st i = df) as Hd.
    { apply (deref_prefix h0 st i df Hpre).
      specialize (Hh0 0%nat (s, df) eq_refl).
      by rewrite Nat.add_0_r in Hh0. }
    rewrite Hd in Hlogs, Hpnl.
    destruct (IH (S i) (backtest_symbol C (s, i) st)) as [IHlogs IHpnl].
    + by apply backtest_symbol_heap.
    + intros j e He. specialize (Hh0 (S j) e He).
      by rewrite Nat.add_succ_r in Hh0.
    + cbn in IHlogs, IHpnl. rewrite IHlogs, IHpnl, Hlogs, Hpnl.
      by rewrite <- app_assoc.
Qed.

(** The aggregates are only written by the backtest loop. *)
Lemma train_symbol_keeps_aggregates item st :
  all_trade_logs (train_symbol C settings item st) = all_trade_logs st
  /\ symbol_pnl_results (train_symbol C settings item st)
     = symbol_pnl_results st
  /\ next_day_pred (train_symbol C settings item st) = next_day_pred st.
Proof.
  destruct item as [s l]. rewrite train_symbol_eq. by repeat case_match.
Qed.

Lemma update_sheets_keeps_aggregates st :
  all_trade_logs (update_sheets st) = all_trade_logs st
  /\ symbol_pnl_results (update_sheets st) = symbol_pnl_results st
  /\ next_day_pred (update_sheets st) = next_day_pred st.
Proof. unfold update_sheets. by repeat case_match. Qed.

Lemma signal_symbol_keeps_aggregates item st :
  all_trade_logs (state_of (signal_symbol C settings item st))
  = all_trade_logs st
  /\ symbol_pnl_results (state_of (signal_symbol C settings item st))
     = symbol_pnl_results st.
Proof.
  destruct item as [s l]. rewrite signal_symbol_eq.
  unfold at_alert_condition. by repeat case_match.
Qed.

Lemma backtest_pass_aggregates hd :
  let st2 :=
    for_each (backtest_symbol C) (items_of hd)
      (for_each (train_symbol C settings) (items_of hd) (initial_state C hd)) in
  all_trade_logs st2 = concat (symbol_trade_log C <$> hd)
  /\ symbol_pnl_results st2 = foldl (record_pnl C) ∅ hd.
Proof.
  set (st1 := for_each (train_symbol C settings) (items_of hd)
                (initial_state C hd)).
  assert (hd.*2 `prefix_of` heap st1
          /\ all_trade_logs st1 = [] /\ symbol_pnl_results st1 = ∅)
    as (Hpre & Hlogs & Hpnl).
  { apply (for_each_ind
             (fun st => hd.*2 `prefix_of` heap st
                        /\ all_trade_logs st = []
                        /\ symbol_pnl_results st = ∅)); [done|].
    intros item st _ (Hh & Hl & Hp).
    destruct (train_symbol_keeps_aggregates item st) as (Hl' & Hp' & _).
    split; [by apply train_symbol_heap|]. by rewrite Hl', Hp'. }
  cbv zeta. unfold items_of.
  destruct (backtest_loop_aggregates (hd.*2) hd 0 st1 Hpre) as [H1 H2].
  { intros j e He. rewrite Nat.add_0_l. by rewrite list_lookup_fmap, He. }
  cbn in H1, H2. by rewrite H1, H2, Hlogs, Hpnl.
Qed.

Lemma run_aggregates hd :
  hd <> [] ->
  all_trade_logs (run_algo_prototype C settings hd).2
  = concat (symbol_trade_log C <$> hd)
  /\ symbol_pnl_results (run_algo_prototype C settings hd).2
     = foldl (record_pnl C) ∅ hd.
Proof.
  intros Hne%is_empty_false. unfold run_algo_prototype. rewrite Hne.
  destruct (backtest_pass_aggregates hd) as [H1 H2]. cbv zeta in H1, H2.
  assert (all_trade_logs (state_of (signal_loop C settings (items_of hd)
                                      (before_signals C settings hd)))
          = concat (symbol_trade_log C <$> hd)
          /\ symbol_pnl_results
               (state_of (signal_loop C settings (items_of hd)
                            (before_signals C settings hd)))
             = foldl (record_pnl C) ∅ hd) as Hfinal.
  { apply (signal_loop_ind C settings
             (fun st => all_trade_logs st = concat (symbol_trade_log C <$> hd)
                        /\ symbol_pnl_results st = foldl (record_pnl C) ∅ hd)).
    - unfold before_signals.
      destruct (update_sheets_keeps_aggregates
                  (for_each (backtest_symbol C) (items_of hd)
                     (for_each (train_symbol C settings) (items_of hd)
                        (initial_state C hd)))) as (Hl & Hp & _).
      by rewrite Hl, Hp.
    - intros item st _ [Hl Hp].
      destruct (signal_symbol_keeps_aggregates item st) as [Hl' Hp'].
      by rewrite Hl', Hp'. }
  by destruct (signal_loop C settings (items_of hd)
                 (before_signals C settings hd)).
Qed.

Lemma record_pnl_other (m : gmap string PnlSummary) s s' df :
  s' <> s -> record_pnl C m (s', df) !! s = m !! s.
Proof.
  intros Hne. unfold record_pnl. cbn. repeat case_match; try done.
  by rewrite lookup_insert_ne.
Qed.

Lemma record_pnl_absent hd s :
  s ∉ hd.*1 -> foldl (record_pnl C) ∅ hd !! s = None.
Proof.
  induction hd as [|[s' df] hd IH] using rev_ind; intros Hnotin; [done|].
  rewrite fmap_app in Hnotin. apply not_elem_of_app in Hnotin as [H1 H2].
  rewrite foldl_app. cbn [foldl].
  rewrite record_pnl_other; [by apply IH|].
  intros ->. apply H2. cbn. by left.
Qed.

Lemma record_pnl_present hd s df :
  NoDup hd.*1 -> (s, df) ∈ hd ->
  foldl (record_pnl C) ∅ hd !! s
  = if is_empty df then None else summary_of <$> (run_backtest C s df).2.
Proof.
  induction hd as [|[s' df'] hd IH] using rev_ind; intros Hnd Hin.
  - by apply elem_of_nil in Hin.
  - rewrite fmap_app in Hnd. apply NoDup_app in Hnd as (Hnd & Hfresh & _).
    rewrite foldl_app. cbn [foldl].
    apply elem_of_app in Hin as [Hin|Hin].
    + rewrite record_pnl_other; [by apply IH|].
      intros ->. apply (Hfresh s).
      * apply list_elem_of_fmap. by exists (s, df).
      * cbn. by left.
    + apply list_elem_of_singleton in Hin. injection Hin as -> ->.
      assert (foldl (record_pnl C) ∅ hd !! s' = None) as Hnone.
      { apply record_pnl_absent. intros Hin. apply (Hfresh s' Hin).
        cbn. by left. }
      unfold record_pnl at 1. cbn.
      destruct (is_empty df'); [done|].
      destruct (run_backtest C s' df').2 as [r|]; cbn; [|done].
      by rewrite lookup_insert_eq.
Qed.
End Aggregation.

(** The trade logs of the symbols are concatenated in dict order, each
    once: the aggregated log handed to the sink is the trade log of the
    first symbol's result followed by that of the second, and so on, with
    nothing for a symbol without data or without result; its length is
    the sum of the lengths. *)
Theorem all_trade_logs_is_concatenation {PS : Type} (C : Components PS)
    (settings : Settings) (hd : list (string * DataFrame)) :
  let logs := all_trade_logs (run_algo_prototype C settings hd).2 in
  logs = concat (symbol_trade_log C <$> hd)
  /\ length logs = sum_list (length <$> (symbol_trade_log C <$> hd)).
Proof.
  assert (all_trade_logs (run_algo_prototype C settings hd).2
          = concat (symbol_trade_log C <$> hd)) as H.
  { destruct hd as [|entry hd]; [done|]. by apply run_aggregates. }
  cbv zeta. rewrite H. split; [done|].
  generalize (symbol_trade_log C <$> hd). intros ls.
  induction ls as [|x ls IH]; [done|].
  cbn. rewrite length_app. by rewrite IH.
Qed.

(** The PnL summary holds, for a symbol of the mapping, exactly the three
    figures of the result its backtest returned, and no entry when the
    symbol has no data or its backtest returned nothing; it holds nothing
    for any other symbol. *)
Theorem pnl_summary_per_symbol {PS : Type} (C : Components PS)
    (settings : Settings) (hd : list (string * DataFrame)) :
  NoDup hd.*1 ->
  let summary := symbol_pnl_results (run_algo_prototype C settings hd).2 in
  (forall s df,
      (s, df) ∈ hd ->
      summary !! s
      = if is_empty df then None
        else summary_of <$> (run_backtest C s df).2)
  /\ (forall s, s ∉ hd.*1 -> summary !! s = None).
Proof.
  intros Hnd.
  assert (symbol_pnl_results (run_algo_prototype C settings hd).2
          = foldl (record_pnl C) ∅ hd) as H.
  { destruct hd as [|entry hd]; [done|]. by apply run_aggregates. }
  cbv zeta. rewrite H. split.
  - intros s df Hin. by apply record_pnl_present.
  - intros s Hs. by apply record_pnl_absent.
Qed.

Lemma pnl_summary_per_symbol_witness :
  let summary :=
    symbol_pnl_results
      (run_algo_prototype Examples.small_components Examples.small_settings
         Examples.three_symbols).2 in
  summary !! "B" = None
  /\ summary !! "C"
     = summary_of
         <$> (run_backtest Examples.small_components "C" Examples.buy_bars).2.
Proof.
  intros summary.
  destruct (pnl_summary_per_symbol Examples.small_components
              Examples.small_settings Examples.three_symbols
              ltac:(apply (bool_decide_unpack _); vm_compute; reflexivity))
    as [Hin _].
  split.
  - apply (Hin "B" []). unfold Examples.three_symbols.
    apply elem_of_cons. right. apply elem_of_cons. by left.
  - apply (Hin "C" Examples.buy_bars). unfold Examples.three_symbols.
    do 2 (apply elem_of_cons; right). apply elem_of_cons. by left.
Defined.

Section SinkDeliveries.
Context {PS : Type}.
Variable C : Components PS.
Variable settings : Settings.
Implicit Types (st : RunState PS) (hd : list (string * DataFrame)).

Lemma update_sheets_trace st :
  trace (update_sheets st)
  = trace st ++ sink_deliveries (all_trade_logs st) (symbol_pnl_results st).
Proof.
  unfold update_sheets, sink_deliveries, emit.
  repeat case_match; cbn; rewrite <- ?app_assoc; by rewrite ?app_nil_r.
Qed.

Lemma sink_deliveries_stage (logs : list Trade) (pnl : gmap string PnlSummary) :
  Forall (fun e => event_stage e = 3%nat) (sink_deliveries logs pnl).
Proof.
  unfold sink_deliveries. repeat case_match; by repeat constructor.
Qed.

Lemma filter_stage_other (k : nat) (tr : list Event) :
  k <> 3%nat -> Forall (fun e => event_stage e = k) tr ->
  filter (fun e => event_stage e = 3%nat) tr = [].
Proof.
  intros Hk Hall. induction Hall as [|e tr He _ IH]; [done|].
  rewrite filter_cons_False; [done|]. congruence.
Qed.

Lemma filter_stage_sink (tr : list Event) :
  Forall (fun e => event_stage e = 3%nat) tr ->
  filter (fun e => event_stage e = 3%nat) tr = tr.
Proof.
  intros Hall. induction Hall as [|e tr He _ IH]; [done|].
  rewrite filter_cons_True by done. by rewrite IH.
Qed.
End SinkDeliveries.

(** The sink is called once, between the backtests and the current
    signals, with the aggregates the run ends with: the trade log goes to
    log_trade_signals and then to update_win_ratio when it is not empty,
    the summary to update_summary_pnl when it has an entry, and nothing
    else is ever delivered. *)
Theorem sink_receives_the_final_aggregates {PS : Type} (C : Components PS)
    (settings : Settings) (hd : list (string * DataFrame)) :
  let st := (run_algo_prototype C settings hd).2 in
  filter (fun e => event_stage e = 3%nat) (trace st)
  = sink_deliveries (all_trade_logs st) (symbol_pnl_results st).
Proof.
  cbv zeta. unfold run_algo_prototype.
  destruct (is_empty hd) eqn:Hhd; [done|].
  destruct (for_each_pass (train_symbol C settings) 1 (items_of hd)
              (initial_state C hd) (train_symbol_chunk C settings))
    as (t1 & H1 & P1%pass_stage).
  set (st1 := for_each (train_symbol C settings) (items_of hd)
                (initial_state C hd)) in *.
  destruct (for_each_pass (backtest_symbol C) 2 (items_of hd) st1
              (backtest_symbol_chunk C)) as (t2 & H2 & P2%pass_stage).
  set (st2 := for_each (backtest_symbol C) (items_of hd) st1) in *.
  destruct (signal_loop_pass C settings (items_of hd) (update_sheets st2))
    as (t4 & n & H4 & P4%pass_stage & _).
  assert (all_trade_logs (state_of (signal_loop C settings (items_of hd)
                                      (update_sheets st2)))
          = all_trade_logs st2
          /\ symbol_pnl_results
               (state_of (signal_loop C settings (items_of hd)
                            (update_sheets st2)))
             = symbol_pnl_results st2) as [Hl Hp].
  { apply (signal_loop_ind C settings
             (fun st => all_trade_logs st = all_trade_logs st2
                        /\ symbol_pnl_results st = symbol_pnl_results st2)).
    - destruct (update_sheets_keeps_aggregates st2) as (? & ? & _). done.
    - intros item st _ [Hl Hp].
      destruct (signal_symbol_keeps_aggregates C settings item st)
        as [Hl' Hp'].
      by rewrite Hl', Hp'. }
  rewrite update_sheets_trace, H2, H1 in H4. cbn in H4.
  unfold before_signals. fold st1. fold st2.
  assert (filter (fun e => event_stage e = 3%nat)
            (trace (state_of (signal_loop C settings (items_of hd)
                                (update_sheets st2))))
          = sink_deliveries (all_trade_logs st2) (symbol_pnl_results st2))
    as Hfilter.
  { rewrite H4, !filter_app.
    rewrite (filter_stage_other 1 t1), (filter_stage_other 2 t2),
      (filter_stage_other 4 t4) by done.
    rewrite filter_stage_sink by apply sink_deliveries_stage.
    by rewrite app_nil_r. }
  destruct (signal_loop C settings (items_of hd) (update_sheets st2));
    cbn in *; by rewrite Hfilter, Hl, Hp.
Qed.

(** ** When the unbound read happens *)

Section UnboundRead.
Context {PS : Type}.
Variable C : Components PS.
Variable settings : Settings.
Implicit Types (st : RunState PS) (s : string) (l : nat).
Implicit Types (hd : list (string * DataFrame)).

Lemma prediction_window_not_empty (df : DataFrame) :
  is_empty df = false -> is_empty (tail (ml_window_rows settings) df) = false.
Proof.
  intros Hdf. rewrite prediction_window_tail.
  apply last_rows_empty; [|done]. unfold prediction_window_rows. lia.
Qed.

Lemma backtest_symbol_keeps_pred item st :
  next_day_pred (backtest_symbol C item st) = next_day_pred st.
Proof.
  destruct item as [s l]. rewrite backtest_symbol_eq. by repeat case_match.
Qed.

Lemma before_signals_pred hd :
  next_day_pred (before_signals C settings hd) = None.
Proof.
  unfold before_signals.
  destruct (update_sheets_keeps_aggregates
              (for_each (backtest_symbol C) (items_of hd)
                 (for_each (train_symbol C settings) (items_of hd)
                    (initial_state C hd)))) as (_ & _ & ->).
  apply (for_each_ind (fun st => next_day_pred st = None)).
  - apply (for_each_ind (fun st => next_day_pred st = None)); [done|].
    intros item st _ <-.
    by destruct (train_symbol_keeps_aggregates C settings item st)
      as (_ & _ & ->).
  - intros item st _ <-. apply backtest_symbol_keeps_pred.
Qed.

Lemma before_signals_heap hd :
  hd.*2 `prefix_of` heap (before_signals C settings hd).
Proof.
  unfold before_signals. rewrite update_sheets_heap.
  apply for_each_ind; [|intros; by apply backtest_symbol_heap].
  apply for_each_ind; [done|intros; by apply train_symbol_heap].
Qed.

(** With a trained model every step binds [next_day_pred] before the
    alert condition reads it. *)
Lemma signal_symbol_trained item st :
  trained C (ml_predictor_instance st) = true ->
  exists st', signal_symbol C settings item st = Ok st'.
Proof.
  intros Htrained. destruct item as [s l]. rewrite signal_symbol_eq.
  cbv zeta. unfold at_alert_condition.
  destruct (is_empty (deref st l)) eqn:Hdf; [eauto|].
  rewrite (prediction_window_not_empty _ Hdf), Htrained. cbn.
  repeat case_match; eauto.
Qed.

Lemma signal_loop_trained (items : Items) st :
  trained C (ml_predictor_instance st) = true ->
  exists st', signal_loop C settings items st = Ok st'.
Proof.
  revert st. induction items as [|item rest IH]; intros st Htrained.
  - by exists st.
  - cbn. destruct (signal_symbol_trained item st Htrained) as [st1 Hst1].
    pose proof (signal_symbol_mono C settings item st) as [Hp _].
    rewrite Hst1 in Hp |- *. cbn in Hp. apply IH. by rewrite Hp.
Qed.

(** With an untrained model a step raises exactly when it reaches the
    alert condition with HOLD. *)
Lemma signal_symbol_untrained s l st :
  trained C (ml_predictor_instance st) = false ->
  next_day_pred st = None ->
  if reports_hold C settings (s, deref st l)
  then exists st',
      signal_symbol C settings (s, l) st
      = Raise (UnboundLocalError "next_day_pred") st'
  else exists st',
      signal_symbol C settings (s, l) st = Ok st'
      /\ next_day_pred st' = None.
Proof.
  intros Huntrained Hunbound. rewrite signal_symbol_eq. cbv zeta.
  unfold reports_hold, at_alert_condition. cbn.
  rewrite Huntrained, andb_false_r, Hunbound.
  destruct (is_empty (deref st l)); cbn; [eauto|].
  destruct (is_empty (tail _ (deref st l))); cbn; [eauto|].
  destruct (_ =? 0); cbn; eauto.
Qed.

Lemma signal_loop_untrained (h0 : list DataFrame) (items : Items) st :
  trained C (ml_predictor_instance st) = false ->
  next_day_pred st = None ->
  h0 `prefix_of` heap st ->
  (forall s l, (s, l) ∈ items -> is_Some (h0 !! l)) ->
  (exists st',
      signal_loop C settings items st
      = Raise (UnboundLocalError "next_day_pred") st')
  <-> exists s l df,
      (s, l) ∈ items /\ h0 !! l = Some df
      /\ reports_hold C settings (s, df) = true.
Proof.
  revert st.
  induction items as [|[s0 l0] rest IH]; intros st Hu Hn Hpre Hvalid.
  - cbn. split.
    + by intros [st' ?].
    + intros (s & l & df & Hin & _). by apply elem_of_nil in Hin.
  - destruct (Hvalid s0 l0 ltac:(by left)) as [df0 Hl0].
    pose proof (deref_prefix h0 st l0 df0 Hpre Hl0) as Hd.
    pose proof (signal_symbol_untrained s0 l0 st Hu Hn) as Hstep.
    rewrite Hd in Hstep. cbn [signal_loop].
    destruct (reports_hold C settings (s0, df0)) eqn:Hhold.
    + destruct Hstep as [st' ->]. split; [|by eauto].
      intros _. exists s0, l0, df0. split; [by left | done].
    + destruct Hstep as (st1 & Hst1 & Hn1).
      pose proof (signal_symbol_mono C settings (s0, l0) st) as [Hp1 _].
      pose proof (signal_symbol_heap C settings h0 (s0, l0) st Hpre) as Hh1.
      rewrite Hst1 in Hp1, Hh1 |- *. cbn in Hp1, Hh1.
      rewrite IH; [| by rewrite Hp1 | done | done
                   | intros; apply (Hvalid s); by right].
      split.
      * intros (s & l & df & Hin & Hl & Hh).
        exists s, l, df. split; [by right | done].
      * intros (s & l & df & Hin & Hl & Hh).
        apply (elem_of_cons rest) in Hin as [Heq|Hin].
        -- injection Heq as -> ->. congruence.
        -- by exists s, l, df.
Qed.
End UnboundRead.

(** The read of the unbound [next_day_pred] happens in exactly one
    situation: the training pass left the model untrained and some symbol
    reaches the alert condition with a HOLD signal.  With a trained model,
    or with BUY or SELL for every symbol that has data, the run reaches
    its last line. *)
Theorem unbound_read_iff_untrained_and_hold {PS : Type} (C : Components PS)
    (settings : Settings) (hd : list (string * DataFrame)) :
  (run_algo_prototype C settings hd).1
  = Uncaught (UnboundLocalError "next_day_pred")
  <-> trained C (predictor_after_training C settings hd) = false
      /\ exists entry, entry ∈ hd /\ reports_hold C settings entry = true.
Proof.
  unfold run_algo_prototype.
  destruct (is_empty hd) eqn:Hhd.
  { destruct hd; [|done]. split; [done|].
    intros (_ & entry & Hin & _). by apply elem_of_nil in Hin. }
  pose proof (before_signals_predictor C settings hd) as Hp.
  pose proof (before_signals_pred C settings hd) as Hn.
  pose proof (before_signals_heap C settings hd) as Hh.
  destruct (trained C (predictor_after_training C settings hd)) eqn:Ht.
  - destruct (signal_loop_trained C settings (items_of hd)
                (before_signals C settings hd)) as [st' ->];
      [by rewrite Hp|].
    split; [done | by intros [? _]].
  - pose proof (signal_loop_untrained C settings (hd.*2) (items_of hd)
                  (before_signals C settings hd)) as Hloop.
    rewrite Hp in Hloop. specialize (Hloop Ht Hn Hh).
    assert (forall s l, (s, l) ∈ items_of hd -> is_Some (hd.*2 !! l))
      as Hvalid.
    { intros s l Hin. apply items_of_elem in Hin as (df & Hl & _).
      exists df. by rewrite list_lookup_fmap, Hl. }
    specialize (Hloop Hvalid).
    split.
    + intros Hout. split; [done|].
      destruct (signal_loop C settings (items_of hd)
                  (before_signals C settings hd)) as [st'|e st'] eqn:Hres;
        [done|].
      injection Hout as ->.
      destruct (proj1 Hloop ltac:(eauto)) as (s & l & df & Hin & Hl & Hhold).
      exists (s, df). split; [|done].
      apply items_of_elem in Hin as (df' & Hl' & Hin').
      rewrite list_lookup_fmap, Hl' in Hl. by injection Hl as <-.
    + intros (_ & [s df] & Hin & Hhold).
      apply list_elem_of_lookup in Hin as [l Hl].
      destruct (proj2 Hloop) as [st' ->]; [|done].
      exists s, l, df. split; [|split; [|done]].
      * eapply list_elem_of_lookup_2. by eapply items_of_lookup_2.
      * by rewrite list_lookup_fmap, Hl.
Qed.

(** ** Queries of the model, alerts, accuracies *)

Section Queries.
Context {PS : Type}.
Variable C : Components PS.
Variable settings : Settings.
Implicit Types (st : RunState PS) (s : string) (l : nat).
Implicit Types (hd : list (string * DataFrame)).

Lemma signal_symbol_queries (P : PS) item st :
  ml_predictor_instance st = P ->
  Forall (fun e => is_prediction e = true -> trained C P = true) (trace st) ->
  (is_Some (next_day_pred st) -> trained C P = true) ->
  Forall (fun e => is_prediction e = true -> trained C P = true)
    (trace (state_of (signal_symbol C settings item st)))
  /\ (is_Some (next_day_pred (state_of (signal_symbol C settings item st))) ->
      trained C P = true).
Proof.
  intros Hp Ht Hn. destruct item as [s l]. rewrite signal_symbol_eq.
  unfold at_alert_condition, alert_of. rewrite Hp.
  destruct (is_empty (deref st l)); [done|].
  destruct (is_empty (tail (required_rows_for_indicators settings) _));
    [done|].
  destruct (negb (is_empty (tail (ml_window_rows settings) (deref st l)))
            && trained C P) eqn:Hpred.
  - apply andb_true_iff in Hpred as [_ Htrained].
    repeat case_match; cbn; (split; [|done]);
      rewrite ?Forall_app; repeat split; try done; by repeat constructor.
  - repeat case_match; cbn; (split; [|done]);
      rewrite ?Forall_app; repeat split; try done; by repeat constructor.
Qed.

Lemma train_symbol_accuracies s l st (s' : string) :
  (is_Some (ml_accuracies st !! s') <-> exists m, EvTrain s' m ∈ trace st) ->
  is_Some (ml_accuracies (train_symbol C settings (s, l) st) !! s')
  <-> exists m, EvTrain s' m ∈ trace (train_symbol C settings (s, l) st).
Proof.
  intros IH. rewrite train_symbol_eq. cbv zeta.
  destruct (is_empty (deref st l)); [done|].
  destruct (is_empty _); cbn.
  - rewrite IH. split; intros [m Hm]; exists m.
    + apply elem_of_app. by left.
    + apply elem_of_app in Hm as [Hm|Hm]; [done|].
      by apply list_elem_of_singleton in Hm.
  - destruct (decide (s = s')) as [->|Hne].
    + rewrite lookup_insert_eq. split; [|by eauto].
      intros _. eexists. apply elem_of_app. right.
      apply elem_of_cons. right. by left.
    + rewrite lookup_insert_ne by done. rewrite IH.
      split; intros [m Hm]; exists m.
      * apply elem_of_app. by left.
      * apply elem_of_app in Hm as [Hm|Hm]; [done|].
        apply (elem_of_cons _) in Hm as [Hm|Hm]; [done|].
        apply list_elem_of_singleton in Hm. congruence.
Qed.

(** A step that leaves [ml_accuracies] alone and records no training. *)
Lemma accuracies_kept (s' : string) st st' (chunk : list Event) :
  ml_accuracies st' = ml_accuracies st ->
  trace st' = trace st ++ chunk ->
  Forall (fun e => is_training e = false) chunk ->
  (is_Some (ml_accuracies st !! s') <-> exists m, EvTrain s' m ∈ trace st) ->
  is_Some (ml_accuracies st' !! s') <-> exists m, EvTrain s' m ∈ trace st'.
Proof.
  intros -> -> Hchunk ->. split; intros [m Hm]; exists m.
  - apply elem_of_app. by left.
  - apply elem_of_app in Hm as [Hm|Hm]; [done|].
    rewrite Forall_forall in Hchunk. by apply Hchunk in Hm.
Qed.

Lemma backtest_symbol_accuracies item st :
  ml_accuracies (backtest_symbol C item st) = ml_accuracies st.
Proof.
  destruct item as [s l]. rewrite backtest_symbol_eq. by repeat case_match.
Qed.

Lemma update_sheets_accuracies st :
  ml_accuracies (update_sheets st) = ml_accuracies st.
Proof. unfold update_sheets. by repeat case_match. Qed.

Lemma signal_symbol_accuracies item st :
  ml_accuracies (state_of (signal_symbol C settings item st))
  = ml_accuracies st.
Proof.
  destruct item as [s l]. rewrite signal_symbol_eq.
  unfold at_alert_condition. by repeat case_match.
Qed.

Lemma chunk_not_training (k : nat) s (chunk : list Event) :
  k <> 1%nat -> chunk_of k s chunk ->
  Forall (fun e => is_training e = false) chunk.
Proof.
  intros Hk Hchunk. eapply Forall_impl; [exact Hchunk|].
  intros [] [Hstage _]; cbn in *; done.
Qed.
End Queries.

(** The model is never asked for a prediction while it is untrained:
    every call of predict_next_day_movement in a run is made on a model
    the training pass left trained, and [next_day_pred] is only ever
    bound in such a run. *)
Theorem model_is_only_queried_when_trained {PS : Type} (C : Components PS)
    (settings : Settings) (hd : list (string * DataFrame)) :
  let st := (run_algo_prototype C settings hd).2 in
  let P := predictor_after_training C settings hd in
  Forall (fun e => is_prediction e = true -> trained C P = true) (trace st)
  /\ (is_Some (next_day_pred st) -> trained C P = true).
Proof.
  cbv zeta. unfold run_algo_prototype.
  destruct (is_empty hd) eqn:Hhd.
  { cbn. split; [done|]. by intros [? ?]. }
  destruct (before_signals_trace C settings hd) as (t1 & t23 & Ht & P1 & P23).
  pose proof (before_signals_predictor C settings hd) as Hp.
  pose proof (before_signals_pred C settings hd) as Hn.
  set (P := predictor_after_training C settings hd) in *.
  assert (ml_predictor_instance
            (state_of (signal_loop C settings (items_of hd)
                         (before_signals C settings hd))) = P
          /\ Forall (fun e => is_prediction e = true -> trained C P = true)
               (trace (state_of (signal_loop C settings (items_of hd)
                                   (before_signals C settings hd))))
          /\ (is_Some (next_day_pred
                         (state_of (signal_loop C settings (items_of hd)
                                      (before_signals C settings hd)))) ->
              trained C P = true)) as (_ & Hall & Hbound).
  { apply (signal_loop_ind C settings
             (fun st => ml_predictor_instance st = P
                        /\ Forall (fun e => is_prediction e = true ->
                                            trained C P = true) (trace st)
                        /\ (is_Some (next_day_pred st) ->
                            trained C P = true))).
    - split; [done|]. split.
      + rewrite Ht. apply Forall_app. split.
        * eapply Forall_impl; [exact P1|]. by intros [] ?.
        * eapply Forall_impl; [exact P23|]. by intros [] [?|?].
      + rewrite Hn. by intros [? ?].
    - intros item st _ (Hps & Hts & Hns). split.
      + by rewrite (proj1 (signal_symbol_mono C settings item st)).
      + by apply signal_symbol_queries. }
  by destruct (signal_loop C settings (items_of hd)
                 (before_signals C settings hd)).
Qed.

(** [ml_accuracies] has an entry for a symbol exactly when the model was
    trained on that symbol's feature rows during the run. *)
Theorem accuracy_recorded_iff_trained {PS : Type} (C : Components PS)
    (settings : Settings) (hd : list (string * DataFrame)) (s : string) :
  let st := (run_algo_prototype C settings hd).2 in
  is_Some (ml_accuracies st !! s) <-> exists m, EvTrain s m ∈ trace st.
Proof.
  cbv zeta.
  apply (run_ind C settings
           (fun st => is_Some (ml_accuracies st !! s)
                      <-> exists m, EvTrain s m ∈ trace st)).
  - cbn. rewrite lookup_empty. split.
    + by intros [? ?].
    + intros [m Hm]. by apply elem_of_nil in Hm.
  - intros [s0 l0] st _ IH. by apply train_symbol_accuracies.
  - intros [s0 l0] st _ IH.
    destruct (backtest_symbol_chunk C s0 l0 st) as (chunk & Htr & Hchunk).
    eapply accuracies_kept; [apply backtest_symbol_accuracies|exact Htr| |done].
    apply (chunk_not_training 2 s0); [lia | done].
  - intros st IH.
    destruct (update_sheets_chunk st) as (chunk & Htr & Hchunk).
    eapply accuracies_kept; [apply update_sheets_accuracies|exact Htr| |done].
    eapply Forall_impl; [exact Hchunk|]. by intros [] ?.
  - intros [s0 l0] st _ IH.
    destruct (signal_symbol_chunk C settings s0 l0 st)
      as (chunk & Htr & Hchunk).
    eapply accuracies_kept;
      [apply signal_symbol_accuracies|exact Htr| |done].
    apply (chunk_not_training 4 s0); [lia | done].
Qed.

Section AlertsPerSymbol.
Context {PS : Type}.
Variable C : Components PS.
Variable settings : Settings.
Implicit Types (st : RunState PS) (s : string) (l : nat).
Implicit Types (hd : list (string * DataFrame)).

Lemma alerts_for_app s (t1 t2 : list Event) :
  alerts_for s (t1 ++ t2) = alerts_for s t1 ++ alerts_for s t2.
Proof. apply filter_app. Qed.

Lemma alerts_for_other_stage s (tr : list Event) :
  Forall (fun e => event_stage e <> 4%nat) tr -> alerts_for s tr = [].
Proof.
  intros Hall. unfold alerts_for.
  induction Hall as [|e tr He _ IH]; [done|].
  rewrite filter_cons_False; [done|].
  destruct e; cbn in *; congruence.
Qed.

Lemma alerts_for_one s s0 (text : string) :
  (length (alerts_for s [EvAlert s0 text])
   <= if decide (s0 = s) then 1 else 0)%nat.
Proof.
  unfold alerts_for. destruct (decide (s0 = s)) as [->|Hne].
  - rewrite filter_cons_True; [done|]. cbn. by rewrite bool_decide_eq_true.
  - rewrite filter_cons_False; [cbn; lia|].
    cbn. by rewrite bool_decide_eq_true.
Qed.

Lemma alerts_for_at_alert_condition s0 l0 st s :
  alerts_for s (trace (at_alert_condition C settings s0 l0 st))
  = alerts_for s (trace st).
Proof.
  unfold at_alert_condition. cbn [trace]. rewrite !alerts_for_app.
  assert (forall a b, alerts_for s [EvGenerateSignals a b] = []) as Hg by done.
  assert (forall a b c, alerts_for s [EvPredict a b c] = []) as Hq by done.
  rewrite Hg. case_match; [rewrite Hq|]; by rewrite !app_nil_r.
Qed.

Lemma signal_symbol_alerts s0 l0 st s :
  (length (alerts_for s (trace (state_of (signal_symbol C settings (s0, l0) st))))
   <= length (alerts_for s (trace st)) + (if decide (s0 = s) then 1 else 0))%nat.
Proof.
  rewrite signal_symbol_eq. cbv zeta.
  pose proof (alerts_for_at_alert_condition s0 l0 st s) as Hat.
  assert (forall text,
             (length (alerts_for s
                        (trace (emit (EvAlert s0 text)
                                  (at_alert_condition C settings s0 l0 st))))
              <= length (alerts_for s (trace st))
                 + (if decide (s0 = s) then 1 else 0))%nat) as Hemit.
  { intros text. cbn [trace emit]. rewrite alerts_for_app, length_app, Hat.
    pose proof (alerts_for_one s s0 text). lia. }
  unfold alert_of.
  remember (if decide (s0 = s) then 1 else 0)%nat as n eqn:Hn in *. clear Hn.
  repeat case_match; cbn [state_of]; rewrite ?Hat;
    first [apply Hemit | cbn [trace set_heap]; lia].
Qed.

Lemma signal_loop_alerts (items : Items) st s :
  NoDup items.*1 ->
  (length (alerts_for s (trace (state_of (signal_loop C settings items st))))
   <= length (alerts_for s (trace st))
      + (if bool_decide (s ∈ items.*1) then 1 else 0))%nat.
Proof.
  revert st. induction items as [|[s0 l0] rest IH]; intros st Hnd.
  - cbn. lia.
  - cbn in Hnd. apply NoDup_cons in Hnd as [Hfresh Hnd].
    pose proof (signal_symbol_alerts s0 l0 st s) as Hstep.
    cbn [signal_loop].
    destruct (signal_symbol C settings (s0, l0) st) as [st1|e st1];
      cbn [state_of] in *.
    + specialize (IH st1 Hnd).
      destruct (decide (s0 = s)) as [->|Hne].
      * rewrite bool_decide_eq_false_2 in IH by done.
        rewrite bool_decide_eq_true_2 by (cbn; by left). lia.
      * destruct (bool_decide (s ∈ rest.*1)) eqn:Hin.
        -- rewrite bool_decide_eq_true_2; [lia|].
           apply bool_decide_eq_true in Hin. cbn. by right.
        -- lia.
    + destruct (decide (s0 = s)) as [->|Hne]; [|lia].
      rewrite bool_decide_eq_true_2 by (cbn; by left). lia.
Qed.
End AlertsPerSymbol.

(** At most one alert is sent for a symbol in a run, and none for a
    symbol without data. *)
Theorem at_most_one_alert_per_symbol {PS : Type} (C : Components PS)
    (settings : Settings) (hd : list (string * DataFrame)) (s : string) :
  NoDup hd.*1 ->
  let tr := trace (run_algo_prototype C settings hd).2 in
  (length (alerts_for s tr) <= 1)%nat
  /\ (alert_sent s tr -> exists df, (s, df) ∈ hd /\ df <> []).
Proof.
  intros Hnd. cbv zeta. split.
  - unfold run_algo_prototype.
    destruct (is_empty hd) eqn:Hhd; [cbn; lia|].
    destruct (before_signals_trace C settings hd)
      as (t1 & t23 & Ht & P1 & P23).
    pose proof (signal_loop_alerts C settings (items_of hd)
                  (before_signals C settings hd) s) as Hloop.
    rewrite items_of_symbols in Hloop. specialize (Hloop Hnd).
    assert (alerts_for s (trace (before_signals C settings hd)) = []) as H0.
    { rewrite Ht, alerts_for_app.
      rewrite (alerts_for_other_stage s t1), (alerts_for_other_stage s t23);
        [done| |].
      - eapply Forall_impl; [exact P23|]. intros e [He|He]; rewrite He; lia.
      - eapply Forall_impl; [exact P1|]. intros e He; rewrite He; lia. }
    rewrite H0 in Hloop. cbn [length] in Hloop.
    destruct (signal_loop C settings (items_of hd)
                (before_signals C settings hd)); cbn [snd state_of] in *;
      destruct (bool_decide _); lia.
  - intros [text Hin].
    pose proof (run_called_with_data C settings hd) as Hall.
    rewrite Forall_forall in Hall. by apply (Hall _ Hin s).
Qed.

Lemma at_most_one_alert_per_symbol_witness :
  (length (alerts_for "C"
             (trace (run_algo_prototype Examples.small_components
                       Examples.small_settings Examples.three_symbols).2))
   <= 1)%nat.
Proof.
  exact (proj1 (at_most_one_alert_per_symbol Examples.small_components
                  Examples.small_settings Examples.three_symbols "C"
                  ltac:(apply (bool_decide_unpack _); vm_compute;
                        reflexivity))).
Defined.

(** Start-up puts the project root on the module search path and is
    idempotent: the root is in the path afterwards, at the front unless it
    was in it already, the other entries keep their place, and doing it
    again changes nothing, so no entry is ever duplicated. *)
Theorem project_root_is_added_once (project_root : string)
    (sys_path : list string) :
  let path := add_project_root project_root sys_path in
  project_root ∈ path
  /\ sys_path `suffix_of` path
  /\ (project_root ∉ sys_path -> path = project_root :: sys_path)
  /\ add_project_root project_root path = path
  /\ (NoDup sys_path -> NoDup path).
Proof.
  cbv zeta. unfold add_project_root.
  destruct (bool_decide (project_root ∈ sys_path)) eqn:Hin.
  - apply bool_decide_eq_true in Hin. rewrite bool_decide_eq_true_2 by done.
    repeat split; try done.
  - apply bool_decide_eq_false in Hin.
    rewrite bool_decide_eq_true_2 by (by left).
    repeat split; try done.
    + by left.
    + by apply suffix_cons_r.
    + intros Hnd. by apply NoDup_cons.
Qed.

(** Feature preparation and the backtest are always handed the whole
    fetched series of their symbol, never an empty one, and the model is
    only ever trained on a feature table that is not empty and that the
    preparation of that same symbol's series returned. *)
Theorem training_and_backtest_inputs {PS : Type} (C : Components PS)
    (settings : Settings) (hd : list (string * DataFrame)) :
  Forall (fed_from_fetched_data C hd)
    (trace (run_algo_prototype C settings hd).2).
Proof.
  apply (run_ind C settings
           (fun st => hd.*2 `prefix_of` heap st
                      /\ Forall (fed_from_fetched_data C hd) (trace st))).
  - done.
  - intros [s l] st Hin [Hh Ht]. split; [by apply train_symbol_heap|].
    apply items_of_elem in Hin as (df & Hl & Hdf).
    rewrite train_symbol_eq. cbv zeta.
    rewrite (items_of_deref hd st s l df Hh Hl).
    destruct (is_empty df) eqn:Hne; [done|]. apply is_empty_false in Hne.
    destruct (is_empty (prepare_data_for_ml C _ df).2) eqn:Hml; cbn.
    + apply Forall_app. split; [done|]. by repeat constructor.
    + apply is_empty_false in Hml.
      apply Forall_app. split; [done|].
      repeat constructor; [done|done|done|]. eauto 10.
  - intros [s l] st Hin [Hh Ht]. split; [by apply backtest_symbol_heap|].
    apply items_of_elem in Hin as (df & Hl & Hdf).
    rewrite backtest_symbol_eq. cbv zeta.
    rewrite (items_of_deref hd st s l df Hh Hl).
    destruct (is_empty df) eqn:Hne; [done|]. apply is_empty_false in Hne.
    case_match; cbn; (apply Forall_app; split; [done|]);
      by repeat constructor.
  - intros st [Hh Ht]. split; [by rewrite update_sheets_heap|].
    unfold update_sheets, emit.
    repeat case_match; cbn; rewrite ?Forall_app; repeat split;
      try done; by repeat constructor.
  - intros [s l] st _ [Hh Ht]. split; [by apply signal_symbol_heap|].
    rewrite signal_symbol_eq. unfold at_alert_condition, alert_of.
    repeat case_match; cbn; rewrite ?Forall_app; repeat split;
      try done; by repeat constructor.
Qed.

(** ** Where the recomputes are applied *)

Section Applied.
Context {PS : Type}.
Variable C : Components PS.
Variable settings : Settings.
Implicit Types (st : RunState PS) (s : string) (l : nat).
Implicit Types (hd : list (string * DataFrame)).


Lemma signal_loop_raises_unbound (items : Items) st e st' :
  signal_loop C settings items st = Raise e st' ->
  e = UnboundLocalError "next_day_pred".
Proof.
  revert st. induction items as [|[s l] rest IH]; intros st; [done|].
  cbn. destruct (signal_symbol C settings (s, l) st) as [st1|e1 st1] eqn:Hs.
  - apply IH.
  - intros [= <- <-]. rewrite signal_symbol_eq in Hs.
    repeat case_match; congruence.
Qed.


(** When section 4 is certain to come to every symbol, its loop ends
    normally. *)
Lemma signal_loop_completes hd :
  reaches_every_symbol C settings hd ->
  exists st',
    signal_loop C settings (items_of hd) (before_signals C settings hd)
    = Ok st'.
Proof.
  intros Hreach.
  pose proof (before_signals_predictor C settings hd) as Hp.
  destruct (trained C (predictor_after_training C settings hd)) eqn:Ht.
  - apply signal_loop_trained. by rewrite Hp.
  - destruct Hreach as [Habs|Hnone]; [unfold reaches_every_symbol in *;
                                       congruence|].
    destruct (signal_loop C settings (items_of hd)
                (before_signals C settings hd)) as [st'|e st'] eqn:Hloop;
      [by eauto|].
    exfalso.
    pose proof (signal_loop_raises_unbound _ _ _ _ Hloop) as ->.
    pose proof (signal_loop_untrained C settings (hd.*2) (items_of hd)
                  (before_signals C settings hd)) as Hiff.
    rewrite Hp in Hiff.
    specialize (Hiff Ht (before_signals_pred C settings hd)
                  (before_signals_heap C settings hd)).
    destruct (proj1 (Hiff ltac:(intros s l Hin;
                               apply items_of_elem in Hin as (df & Hl & _);
                               exists df; by rewrite list_lookup_fmap, Hl))
                ltac:(eauto)) as (s & l & df & Hin & Hl & Hhold).
    apply items_of_elem in Hin as (df' & Hl' & Hin').
    rewrite list_lookup_fmap, Hl' in Hl. injection Hl as ->.
    rewrite Forall_forall in Hnone. specialize (Hnone _ Hin'). congruence.
Qed.
End Applied.



(** ** The invariant of the stored results *)

Section TradesOf.
Context {PS : Type}.
Variable C : Components PS.
Implicit Types (hd : list (string * DataFrame)) (s : string).

Lemma trades_of_app s (l1 l2 : list Trade) :
  trades_of s (l1 ++ l2) = trades_of s l1 ++ trades_of s l2.
Proof. apply filter_app. Qed.

Lemma trades_of_own s (log : list Trade) :
  Forall (fun t => trade_symbol t = s) log -> trades_of s log = log.
Proof.
  unfold trades_of. induction 1 as [|t log Ht _ IH]; [done|].
  rewrite filter_cons_True by done. by rewrite IH.
Qed.

Lemma trades_of_other s s' (log : list Trade) :
  s' <> s ->
  Forall (fun t => trade_symbol t = s') log -> trades_of s log = [].
Proof.
  intros Hne. unfold trades_of. induction 1 as [|t log Ht _ IH]; [done|].
  rewrite filter_cons_False; [done|]. congruence.
Qed.

(** The trades of a symbol in the aggregated log are those of its own
    result, when every result names its own symbol in its trades. *)
Lemma trades_of_concat hd s df :
  NoDup hd.*1 ->
  (forall entry,
      entry ∈ hd ->
      Forall (fun t => trade_symbol t = entry.1) (symbol_trade_log C entry)) ->
  (s, df) ∈ hd ->
  trades_of s (concat (symbol_trade_log C <$> hd)) = symbol_trade_log C (s, df).
Proof.
  induction hd as [|[s' df'] hd IH]; intros Hnd Hown Hin.
  - by apply elem_of_nil in Hin.
  - cbn in Hnd. apply NoDup_cons in Hnd as [Hfresh Hnd].
    cbn [fmap list_fmap concat]. rewrite trades_of_app.
    assert (forall entry,
               entry ∈ hd ->
               Forall (fun t => trade_symbol t = entry.1)
                 (symbol_trade_log C entry)) as Hown'.
    { intros entry He. apply Hown. by right. }
    apply (elem_of_cons hd) in Hin as [Heq|Hin].
    + injection Heq as <- <-.
      rewrite (trades_of_own s (symbol_trade_log C (s, df)))
        by (apply (Hown (s, df)); by left).
      assert (trades_of s (concat (symbol_trade_log C <$> hd)) = []) as ->;
        [|by rewrite app_nil_r].
      clear IH Hown Hnd. induction hd as [|[s1 df1] hd IH]; [done|].
      cbn [fmap list_fmap concat]. rewrite trades_of_app.
      rewrite (trades_of_other s s1).
      * cbn [app]. apply IH.
        -- intros H. apply Hfresh. cbn. by right.
        -- intros entry He. apply Hown'. by right.
      * intros ->. apply Hfresh. cbn. by left.
      * apply (Hown' (s1, df1)). by left.
    + rewrite (trades_of_other s s').
      * cbn [app]. by apply IH.
      * intros ->. apply Hfresh. apply list_elem_of_fmap. by exists (s, df).
      * apply (Hown (s', df')). by left.
Qed.
End TradesOf.

Section OwnTrades.
Import Reference.

Lemma backtest_step_symbols symbol acc r :
  Forall (fun t => trade_symbol t = symbol) (trades acc) ->
  Forall (fun t => trade_symbol t = symbol)
    (trades (backtest_step symbol acc r)).
Proof.
  intros Hacc. unfold backtest_step.
  repeat case_match; try done.
  cbn [trades]. apply Forall_app. split; [done|].
  by apply Forall_singleton.
Qed.

Lemma final_account_symbols symbol rows initial :
  Forall (fun t => trade_symbol t = symbol)
    (trades (final_account symbol rows initial)).
Proof.
  unfold final_account.
  assert (forall acc,
             Forall (fun t => trade_symbol t = symbol) (trades acc) ->
             Forall (fun t => trade_symbol t = symbol)
               (trades (foldl (backtest_step symbol) acc rows))) as H.
  { induction rows as [|r rows IH]; intros acc Hacc; [done|].
    cbn [foldl]. by apply IH, backtest_step_symbols. }
  by apply H.
Qed.

(** What the engine of section 4.2 returns for a series without a zero
    price. *)
Lemma ref_run_backtest_result settings s df res :
  forallb nonzero_close df = true ->
  (ref_run_backtest settings s df).2 = Some res ->
  df <> []
  /\ Forall (fun t => trade_symbol t = s) (trade_log res)
  /\ (final_capital res == initial_capital res + total_pnl res)%Q
  /\ (flat_at_end settings s df ->
      (total_pnl res == realized (trade_log res))%Q).
Proof.
  intros Hprices. unfold flat_at_end, ref_run_backtest, ref_generate_signals.
  cbn [fst snd]. intros Hres.
  assert (forall row,
             row ∈ assign_signals settings (Close <$> df) 0
                     [None; None; None] false df ->
             ~ (Close row == 0)%Q) as Hrows.
  { intros row Hrow. apply assign_signals_close in Hrow as (r & Hr & ->).
    apply nonzero_close_spec. rewrite forallb_forall in Hprices.
    by apply Hprices, list_elem_of_In. }
  destruct (simulate_balanced s _ _ res Hrows Hres) as (H1 & H2 & H3).
  split; [intros ->; cbn in Hres; discriminate|].
  split; [rewrite H2; apply final_account_symbols|]. by split.
Qed.
End OwnTrades.

(** The engine of section 4.2 on the 60-bar series whose price never
    moves: a result with no trade and the capital unchanged. *)
Lemma flat_series_has_no_trade :
  (Reference.ref_run_backtest Examples.usual_settings "A"
     (Examples.flat 60)).2
  = Some (mkBacktestResult Reference.INITIAL_CAPITAL
            Reference.INITIAL_CAPITAL 0 []).
Proof. vm_compute. reflexivity. Qed.

(** C7: when the backtester returns what section 4.2 describes and no
    price is zero, every non-empty result returned for a symbol of the
    run is stored under that symbol with its three fields unchanged; its
    final_capital equals its initial_capital plus its total_pnl; the
    trades of that symbol in the aggregated trade log are exactly its
    trade log; and its total_pnl equals the exact sum of realized_pnl
    over them whenever no position remains open at the end of the data.
    Every entry of the per-symbol PnL summary is stored in this way, for
    its own symbol. *)
Theorem backtest_results_are_balanced {PS : Type} (C : Components PS)
    (settings : Settings) (hd : list (string * DataFrame)) :
  NoDup hd.*1 ->
  prices_nonzero hd = true ->
  backtests_as_specified C settings hd ->
  let st := (run_algo_prototype C settings hd).2 in
  (forall s df res,
      (s, df) ∈ hd ->
      (run_backtest C s df).2 = Some res ->
      symbol_pnl_results st !! s = Some (summary_of res)
      /\ trades_of s (all_trade_logs st) = trade_log res
      /\ (final_capital res == initial_capital res + total_pnl res)%Q
      /\ (flat_at_end settings s df ->
          (total_pnl res
           == Reference.realized (trades_of s (all_trade_logs st)))%Q))
  /\ (forall s e,
         symbol_pnl_results st !! s = Some e ->
         exists df res,
           (s, df) ∈ hd /\ (run_backtest C s df).2 = Some res
           /\ e = summary_of res).
Proof.
  intros Hnd Hprices Hspec st.
  assert (forall s df res,
             (s, df) ∈ hd -> (run_backtest C s df).2 = Some res ->
             df <> []
             /\ Forall (fun t => trade_symbol t = s) (trade_log res)
             /\ (final_capital res == initial_capital res + total_pnl res)%Q
             /\ (flat_at_end settings s df ->
                 (total_pnl res == Reference.realized (trade_log res))%Q))
    as Hres.
  { intros s df res Hin Hr. rewrite (Hspec s df Hin) in Hr.
    apply ref_run_backtest_result; [|done].
    unfold prices_nonzero in Hprices. rewrite forallb_forall in Hprices.
    by apply (Hprices (s, df)), list_elem_of_In. }
  destruct (decide (hd = [])) as [->|Hne].
  { split.
    - intros s df res Hin. by apply elem_of_nil in Hin.
    - intros s e. subst st. by cbn. }
  destruct (run_aggregates C settings hd Hne) as [Hlogs Hpnl].
  subst st. rewrite Hlogs, Hpnl. split.
  - intros s df res Hin Hr.
    destruct (Hres s df res Hin Hr) as (Hdf & Hown & Hbal & Hflat).
    apply is_empty_false in Hdf.
    assert (symbol_trade_log C (s, df) = trade_log res) as Hlog.
    { unfold symbol_trade_log. cbn [fst snd]. by rewrite Hdf, Hr. }
    assert (trades_of s (concat (symbol_trade_log C <$> hd)) = trade_log res)
      as Htrades.
    { rewrite <- Hlog. apply trades_of_concat; [done| |done].
      intros [s1 df1] Hin1. unfold symbol_trade_log. cbn [fst snd].
      destruct (is_empty df1); [done|].
      destruct (run_backtest C s1 df1).2 as [res1|] eqn:Hr1; [|done].
      by destruct (Hres s1 df1 res1 Hin1 Hr1) as (_ & ? & _). }
    rewrite Htrades.
    split; [|done].
    rewrite (record_pnl_present C hd s df Hnd Hin), Hdf, Hr. done.
  - intros s e He.
    destruct (decide (s ∈ hd.*1)) as [Hs|Hs].
    + apply list_elem_of_fmap in Hs as ([s1 df] & -> & Hin). cbn in He.
      rewrite (record_pnl_present C hd s1 df Hnd Hin) in He.
      destruct (is_empty df); [done|].
      destruct (run_backtest C s1 df).2 as [res|] eqn:Hr; [|done].
      injection He as <-. by exists df, res.
    + by rewrite (record_pnl_absent C hd s Hs) in He.
Qed.

Lemma backtest_results_are_balanced_witness :
  let st :=
    (run_algo_prototype Examples.small_components Examples.small_settings
       Examples.three_symbols).2 in
  exists res,
    (Reference.ref_run_backtest Examples.small_settings "A"
       Examples.round_trip_bars).2 = Some res
    /\ symbol_pnl_results st !! "A" = Some (summary_of res)
    /\ trades_of "A" (all_trade_logs st) = trade_log res
    /\ (final_capital res == initial_capital res + total_pnl res)%Q
    /\ (total_pnl res
        == Reference.realized (trades_of "A" (all_trade_logs st)))%Q.
Proof.
  intros st.
  destruct (Reference.ref_run_backtest Examples.small_settings "A"
              Examples.round_trip_bars).2 as [res|] eqn:Hres;
    [|vm_compute in Hres; discriminate].
  exists res.
  destruct (backtest_results_are_balanced Examples.small_components
              Examples.small_settings Examples.three_symbols)
    as [Hall _].
  - apply (bool_decide_unpack _). vm_compute. reflexivity.
  - vm_compute. reflexivity.
  - intros s df _. reflexivity.
  - destruct (Hall "A" Examples.round_trip_bars res) as (H1 & H2 & H3 & H4).
    + unfold Examples.three_symbols. apply elem_of_cons. by left.
    + exact Hres.
    + exact (conj eq_refl (conj H1 (conj H2 (conj H3
               (H4 ltac:(vm_compute; reflexivity)))))).
Defined.

(** ** The alerts of a run *)

Section AlertsSent.
Context {PS : Type}.
Variable C : Components PS.
Variable settings : Settings.
Variable hd : list (string * DataFrame).
Implicit Types (st : RunState PS) (s : string) (l : nat).

Lemma is_empty_false_inv (df : DataFrame) : is_empty df = false -> df <> [].
Proof. by intros H ->. Qed.

Lemma alert_of_message s l st df :
  deref st l = df ->
  ml_predictor_instance st = predictor_after_training C settings hd ->
  is_empty df = false ->
  alert_of C settings s l st = EvAlert s (alert_message C settings hd s df).
Proof.
  intros Hd Hp Hdf. unfold alert_of, alert_message.
  rewrite Hd, Hp, (prediction_window_not_empty settings df Hdf). done.
Qed.

Lemma at_alert_condition_pred s l st df :
  deref st l = df ->
  ml_predictor_instance st = predictor_after_training C settings hd ->
  is_empty df = false ->
  next_day_pred (at_alert_condition C settings s l st)
  = if trained C (predictor_after_training C settings hd)
    then
      Some (predict_next_day_movement C
              (predictor_after_training C settings hd)
              (tail (ml_window_rows settings) df) (FEATURES settings)).2
    else next_day_pred st.
Proof.
  intros Hd Hp Hdf. unfold at_alert_condition. cbn [next_day_pred].
  rewrite Hd, Hp, (prediction_window_not_empty settings df Hdf). done.
Qed.

Lemma at_alert_condition_no_alert s l st :
  Forall (alert_from_own_data C settings hd) (trace st) ->
  Forall (alert_from_own_data C settings hd)
    (trace (at_alert_condition C settings s l st)).
Proof.
  intros Ht. unfold at_alert_condition. cbn [trace].
  rewrite !Forall_app. split; [done|]. split; [by repeat constructor|].
  case_match; by repeat constructor.
Qed.

(** An iteration of section 4 only sends an alert that is due, and keeps
    [next_day_pred] unbound while the model is untrained. *)
Lemma signal_symbol_alert_content s l st df :
  (s, df) ∈ hd ->
  deref st l = df ->
  ml_predictor_instance st = predictor_after_training C settings hd ->
  (is_Some (next_day_pred st) ->
   trained C (predictor_after_training C settings hd) = true) ->
  Forall (alert_from_own_data C settings hd) (trace st) ->
  (is_Some (next_day_pred (state_of (signal_symbol C settings (s, l) st))) ->
   trained C (predictor_after_training C settings hd) = true)
  /\ Forall (alert_from_own_data C settings hd)
       (trace (state_of (signal_symbol C settings (s, l) st))).
Proof.
  intros Hin Hd Hp Hn Ht. rewrite signal_symbol_eq. cbv zeta. rewrite Hd.
  destruct (is_empty df) eqn:Hdf; [done|].
  destruct (is_empty (tail (required_rows_for_indicators settings) df))
    eqn:Hw; [done|].
  rewrite (alert_of_message s l st df Hd Hp Hdf).
  pose proof (at_alert_condition_pred s l st df Hd Hp Hdf) as Hnd.
  pose proof (at_alert_condition_no_alert s l st Ht) as Htr.
  assert (is_Some (next_day_pred (at_alert_condition C settings s l st)) ->
          trained C (predictor_after_training C settings hd) = true) as Hn'.
  { rewrite Hnd. by destruct (trained C _). }
  assert (forall v,
             next_day_pred (at_alert_condition C settings s l st) = Some v ->
             v <> -1 ->
             alert_due C settings hd df) as Hpred.
  { intros v Hv Hne. split; [by apply is_empty_false_inv|].
    split; [by apply is_empty_false_inv|]. right.
    assert (trained C (predictor_after_training C settings hd) = true)
      as Htrained by (apply Hn'; by rewrite Hv).
    split; [done|]. rewrite Htrained, Hv in Hnd. by injection Hnd as <-. }
  assert (forall e,
             alert_from_own_data C settings hd e ->
             (is_Some (next_day_pred
                         (emit e (at_alert_condition C settings s l st))) ->
              trained C (predictor_after_training C settings hd) = true)
             /\ Forall (alert_from_own_data C settings hd)
                  (trace (emit e (at_alert_condition C settings s l st))))
    as Hemit.
  { intros e He. split; [exact Hn'|]. cbn [emit trace].
    apply Forall_app. split; [done|]. by repeat constructor. }
  destruct (negb (_ =? 0)) eqn:Hsig.
  - cbn [state_of]. apply Hemit. exists df. split; [done|]. split; [|done].
    split; [by apply is_empty_false_inv|].
    split; [by apply is_empty_false_inv|]. left.
    by apply negb_true_iff, Z.eqb_neq in Hsig.
  - destruct (next_day_pred (at_alert_condition C settings s l st))
      as [p|] eqn:Hp'.
    2:{ cbn [state_of]. rewrite Hp'. split; [by intros [? ?]|exact Htr]. }
    destruct (Z.eqb_spec p (-1)) as [Hm|Hm]; cbn [negb state_of].
    { rewrite Hp'. exact (conj Hn' Htr). }
    apply Hemit. exists df. split; [done|]. split; [|done]. by apply (Hpred p).
Qed.

(** An iteration of section 4 that ends normally has sent the alert
    that is due. *)
Lemma signal_symbol_alert_sent s l st st1 df :
  deref st l = df ->
  ml_predictor_instance st = predictor_after_training C settings hd ->
  alert_due C settings hd df ->
  signal_symbol C settings (s, l) st = Ok st1 ->
  EvAlert s (alert_message C settings hd s df) ∈ trace st1.
Proof.
  intros Hd Hp (Hdf%is_empty_false & Hw%is_empty_false & Hcond).
  rewrite signal_symbol_eq. cbv zeta. rewrite Hd, Hdf, Hw.
  rewrite (alert_of_message s l st df Hd Hp Hdf).
  pose proof (at_alert_condition_pred s l st df Hd Hp Hdf) as Hnd.
  assert (forall e st2,
             Ok (emit e (at_alert_condition C settings s l st)) = Ok st2 ->
             e ∈ trace st2) as Hemit.
  { intros e st2 [= <-]. cbn [emit trace]. apply elem_of_app. right.
    by apply list_elem_of_singleton. }
  destruct (negb (_ =? 0)) eqn:Hsig; [by apply Hemit|].
  apply negb_false_iff, Z.eqb_eq in Hsig.
  destruct Hcond as [Hne|[Htrained Hne]]; [done|].
  rewrite Htrained in Hnd. rewrite Hnd.
  apply Z.eqb_neq in Hne. rewrite Hne. cbn [negb].
  by apply Hemit.
Qed.

Lemma signal_loop_alert_sent (items : Items) st st' :
  hd.*2 `prefix_of` heap st ->
  ml_predictor_instance st = predictor_after_training C settings hd ->
  signal_loop C settings items st = Ok st' ->
  forall s l df,
    (s, l) ∈ items -> hd.*2 !! l = Some df ->
    alert_due C settings hd df ->
    EvAlert s (alert_message C settings hd s df) ∈ trace st'.
Proof.
  revert st. induction items as [|[s0 l0] rest IH]; intros st Hpre Hp Hloop.
  - intros s l df Hin. by apply elem_of_nil in Hin.
  - cbn in Hloop.
    destruct (signal_symbol C settings (s0, l0) st) as [st1|] eqn:Hstep;
      [|done].
    pose proof (signal_symbol_mono C settings (s0, l0) st) as [Hp1 _].
    pose proof (signal_symbol_heap C settings _ (s0, l0) st Hpre) as Hh1.
    rewrite Hstep in Hp1, Hh1. cbn in Hp1, Hh1.
    assert (trace st1 `prefix_of` trace st') as [k Hk].
    { pose proof (signal_loop_ind C settings
                    (fun x => trace st1 `prefix_of` trace x) rest st1) as Hi.
      rewrite Hloop in Hi. apply Hi; [done|].
      intros item x _ Hx. etrans; [exact Hx|].
      apply (signal_symbol_mono C settings item x). }
    intros s l df Hin Hl Hdue.
    apply (elem_of_cons rest) in Hin as [Heq|Hin].
    + injection Heq as -> ->. rewrite Hk. apply elem_of_app. left.
      apply (signal_symbol_alert_sent s0 l0 st st1 df); try done.
      by eapply deref_prefix.
    + apply (IH st1 Hh1 ltac:(congruence) Hloop s l df Hin Hl Hdue).
Qed.
End AlertsSent.

(** The alerts of a run are those that are due.  Every alert sent is for
    a symbol of the mapping that has data and a signal window, carries
    the message built from that symbol's own series and the model as the
    training pass left it, and is sent because the current signal is not
    0 or the trained model predicts something other than -1.  When
    section 4 comes to every symbol (the model is trained, or no symbol
    reaches the alert condition with HOLD), every alert that is due is
    sent. *)
Theorem alerts_sent_are_those_due {PS : Type} (C : Components PS)
    (settings : Settings) (hd : list (string * DataFrame)) :
  let tr := trace (run_algo_prototype C settings hd).2 in
  Forall (alert_from_own_data C settings hd) tr
  /\ (reaches_every_symbol C settings hd ->
      forall s df,
        (s, df) ∈ hd -> alert_due C settings hd df ->
        EvAlert s (alert_message C settings hd s df) ∈ tr).
Proof.
  cbv zeta. unfold run_algo_prototype.
  destruct (is_empty hd) eqn:Hhd.
  { destruct hd; [|done]. split; [by constructor|].
    intros _ s df Hin. by apply elem_of_nil in Hin. }
  pose proof (before_signals_predictor C settings hd) as Hp.
  pose proof (before_signals_heap C settings hd) as Hh.
  pose proof (before_signals_pred C settings hd) as Hn.
  split.
  - assert (Forall (alert_from_own_data C settings hd)
              (trace (state_of (signal_loop C settings (items_of hd)
                                  (before_signals C settings hd))))) as H.
    { apply (signal_loop_ind C settings
               (fun st =>
                  hd.*2 `prefix_of` heap st
                  /\ ml_predictor_instance st
                     = predictor_after_training C settings hd
                  /\ (is_Some (next_day_pred st) ->
                      trained C (predictor_after_training C settings hd)
                      = true)
                  /\ Forall (alert_from_own_data C settings hd) (trace st))).
      - split; [done|]. split; [done|]. split.
        + rewrite Hn. by intros [? ?].
        + destruct (before_signals_trace C settings hd)
            as (t1 & t23 & -> & P1 & P23).
          apply Forall_app. split.
          * eapply Forall_impl; [exact P1|]. by intros [] ?.
          * eapply Forall_impl; [exact P23|]. by intros [] [?|?].
      - intros [s l] st Hin (Hh' & Hp' & Hn' & Ht').
        apply items_of_elem in Hin as (df & Hl & Hdf).
        split; [by apply signal_symbol_heap|].
        split.
        { by rewrite (proj1 (signal_symbol_mono C settings (s, l) st)). }
        apply (signal_symbol_alert_content C settings hd s l st df);
          try done.
        by apply (items_of_deref hd st s l df). }
    by destruct (signal_loop C settings (items_of hd)
                   (before_signals C settings hd)).
  - intros Hreach s df Hin Hdue.
    destruct (signal_loop_completes C settings hd Hreach) as [st' Hloop].
    rewrite Hloop. cbn [snd].
    apply list_elem_of_lookup in Hin as [l Hl].
    apply (signal_loop_alert_sent C settings hd (items_of hd)
             (before_signals C settings hd) st' Hh Hp Hloop s l df);
      [|by rewrite list_lookup_fmap, Hl|done].
    eapply list_elem_of_lookup_2. by eapply items_of_lookup_2.
Qed.

Lemma alerts_sent_are_those_due_witness :
  EvAlert "B"
    (alert_message Examples.small_components Examples.small_settings
       Examples.two_short_series "B" Examples.buy_bars)
  ∈ trace (run_algo_prototype Examples.small_components
             Examples.small_settings Examples.two_short_series).2.
Proof.
  destruct (alerts_sent_are_those_due Examples.small_components
              Examples.small_settings Examples.two_short_series)
    as [_ Hsent].
  apply Hsent.
  - right. unfold Examples.two_short_series.
    constructor; [vm_compute; reflexivity|].
    constructor; [vm_compute; reflexivity|]. constructor.
  - unfold Examples.two_short_series. apply elem_of_cons. right.
    apply list_elem_of_singleton. reflexivity.
  - unfold alert_due. split; [vm_compute; discriminate|].
    split; [vm_compute; discriminate|]. left. vm_compute. discriminate.
Defined.
